(** * MSColab socket layer: a shallow embedding of
      mslib/mscolab/sockets_manager.py, mslib/mscolab/utils.py and the parts
      of mslib/mscolab/models.py the handlers use. *)

From stdpp Require Import gmap strings list pretty.

Local Open Scope Z_scope.
Set Warnings "-clear-no-such-hyp".
Set Default Proof Using "Type".

(** ** Data model (models.py) *)

(** [access_level] is a database enum of exactly these four strings. *)
Inductive AccessLevel := admin | collaborator | viewer | creator.

Global Instance AccessLevel_eq_dec : EqDecision AccessLevel.
Proof. solve_decision. Defined.

(** The members of [MessageType] (message_type.py). *)
Inductive MessageType := TEXT | SYSTEM_MESSAGE | IMAGE | DOCUMENT.

Global Instance MessageType_eq_dec : EqDecision MessageType.
Proof. solve_decision. Defined.

Module User.
Record t := mk { id : Z; username : string; emailid : string }.
End User.

Module Permission.
Record t := mk { id : Z; op_id : Z; u_id : Z; access_level : AccessLevel }.
End Permission.

Module Message.
(** [reply_id] is a nullable foreign key on [messages.id]; the wall-clock
    column [created_at] is left out. *)
Record t := mk {
  id : Z; op_id : Z; u_id : Z; text : string;
  message_type : MessageType; reply_id : option Z }.

Global Instance eq_dec : EqDecision t.
Proof. solve_decision. Defined.
End Message.

Module Change.
Record t := mk {
  id : Z; op_id : Z; u_id : Z; commit_hash : string;
  version_name : option string; comment : option string }.
End Change.

Record DB := mkDB {
  users : list User.t;
  permissions : list Permission.t;
  messages : list Message.t;
  changes : list Change.t }.

(** ** Python values sent as event data *)

#[warnings="-register-all"]
Inductive pyval :=
| PyNone
| PyInt (z : Z)
| PyStr (s : string)
| PyEnum (t : MessageType)
| PyList (l : list pyval)
| PyDict (kv : list (string * pyval)).

(** The second argument of [socketio.emit]: absent, a dict, or the string
    [json.dumps(v)], which is kept as the value it encodes. *)
Inductive payload := NoData | Data (v : pyval) | Dumps (v : pyval).

(** ** The Socket.IO server object *)

(** One delivered emission.  [em_to] is the [to]/[room] argument of
    [socketio.emit]; [em_recipients] are the connections the server hands the
    event to at the moment of the call. *)
Record Emission := mkEmission {
  em_event : string;
  em_data : payload;
  em_to : option string;
  em_recipients : gset string }.

(** Rows written by the persistence layer. *)
Inductive Row :=
| RowMessage (m : Message.t)
| RowChange (c : Change.t)
| RowMessageEdited (message_id : Z) (new_text : string)
| RowMessagesDeleted (ids : list Z).

(** Observable effects, in program order. *)
Inductive Effect := Emit (e : Emission) | Commit (r : Row).

(** ** The SocketsManager object *)

(** [{'s_id': request.sid, 'u_id': user.id}] *)
Record socket_storage := mkSocket { s_id : string; u_id : Z }.

(** A Python dict with integer keys: an association list in insertion order.
    Python keeps keys unique, see [dict_wf]. *)
Abbreviation pydict V := (list (Z * V)).

Record SocketsManager := mkSM {
  sockets : list socket_storage;
  active_users_per_operation : pydict (gset Z) }.

(** [SocketsManager.__init__] *)
Definition SocketsManager_init : SocketsManager :=
  {| sockets := []; active_users_per_operation := [] |}.

(** The whole server: the manager, the database, the operation files of the
    file manager, the rooms every connected client (by session id) is in, and
    the effects so far. *)
Record World := mkWorld {
  sm : SocketsManager;
  db : DB;
  files : gmap Z string;
  sio_rooms : gmap string (gset string);
  trace : list Effect }.

Definition with_sm (f : SocketsManager → SocketsManager) (w : World) : World :=
  {| sm := f (sm w); db := db w; files := files w;
     sio_rooms := sio_rooms w; trace := trace w |}.
Definition with_db (f : DB → DB) (w : World) : World :=
  {| sm := sm w; db := f (db w); files := files w;
     sio_rooms := sio_rooms w; trace := trace w |}.
Definition with_files (f : gmap Z string → gmap Z string) (w : World) : World :=
  {| sm := sm w; db := db w; files := f (files w);
     sio_rooms := sio_rooms w; trace := trace w |}.
Definition with_rooms (f : gmap string (gset string) → gmap string (gset string))
    (w : World) : World :=
  {| sm := sm w; db := db w; files := files w;
     sio_rooms := f (sio_rooms w); trace := trace w |}.
Definition log (e : Effect) (w : World) : World :=
  {| sm := sm w; db := db w; files := files w;
     sio_rooms := sio_rooms w; trace := trace w ++ [e] |}.

(** ** Handlers run in a state monad with Python exceptions *)

Inductive exn := KeyError | AttributeError.

Inductive result (A : Type) := Ok (a : A) | Raise (e : exn).
Arguments Ok {A} a.
Arguments Raise {A} e.

Definition M (A : Type) : Type := World → result A * World.

Global Instance M_ret : MRet M := λ A a w, (Ok a, w).
Global Instance M_bind : MBind M := λ A B f m w,
  match m w with
  | (Ok a, w') => f a w'
  | (Raise e, w') => (Raise e, w')
  end.

Definition raise {A} (e : exn) : M A := λ w, (Raise e, w).
Definition gets {A} (f : World → A) : M A := λ w, (Ok (f w), w).
Definition modify (f : World → World) : M unit := λ w, (Ok tt, f w).

(** [for x in l: body(x)] *)
Fixpoint for_each {A} (l : list A) (body : A → M unit) : M unit :=
  match l with
  | [] => mret tt
  | x :: l' => body x;; for_each l' body
  end.

(** State reached by a handler, whether it returned or raised. *)
Definition exec {A} (m : M A) (w : World) : World := (m w).2.

(** ** Python dict operations *)

Section pydict.
Context {V : Type}.

(** [d.get(k)] / [k in d] *)
Fixpoint dict_get (k : Z) (d : pydict V) : option V :=
  match d with
  | [] => None
  | (k', v) :: d' => if decide (k' = k) then Some v else dict_get k d'
  end.

(** [d[k] = v]: overwrites in place, a new key goes last. *)
Fixpoint dict_set (k : Z) (v : V) (d : pydict V) : pydict V :=
  match d with
  | [] => [(k, v)]
  | (k', v') :: d' =>
      if decide (k' = k) then (k, v) :: d' else (k', v') :: dict_set k v d'
  end.

(** [del d[k]] on a key that is present. *)
Definition dict_del (k : Z) (d : pydict V) : pydict V :=
  filter (λ kv, kv.1 ≠ k) d.

(** [list(d.items())] *)
Definition dict_items (d : pydict V) : list (Z * V) := d.

Definition dict_keys (d : pydict V) : list Z := d.*1.

Definition dict_wf (d : pydict V) : Prop := NoDup (dict_keys d).
End pydict.

Global Arguments dict_del : simpl never.
Global Arguments dict_keys : simpl never.
Global Arguments dict_wf : simpl never.

(** ** Socket.IO primitives (flask_socketio) *)

(** Who receives an emission: without [to] every connected client, with
    [to=r] the clients that are in room [r]. *)
Definition recipients (rooms : gmap string (gset string)) (to : option string)
    : gset string :=
  match to with
  | None => dom rooms
  | Some r => dom (filter (λ kv, r ∈ kv.2) rooms)
  end.

Definition sio_emit (event : string) (data : payload) (to : option string) : M unit :=
  λ w, (Ok tt, log (Emit {| em_event := event; em_data := data; em_to := to;
                            em_recipients := recipients (sio_rooms w) to |}) w).

(** [socketio.emit(event, data)], as every call in sockets_manager.py is
    written: no [to], no [room]. *)
Definition socketio_emit (event : string) (data : payload) : M unit :=
  sio_emit event data None.

(** [join_room(room)] inside a handler: the current connection [request.sid]
    enters [room]. *)
Definition join_room (request_sid : string) (room : string) : M unit :=
  modify (with_rooms (λ rooms,
    <[request_sid := {[room]} ∪ default ∅ (rooms !! request_sid)]> rooms)).

(** [str(n)] for an int. *)
Definition str (n : Z) : string := pretty n.

(** ** utils.py *)

Definition get_session_id (sockets : list socket_storage) (uid : Z) : option string :=
  fold_left (λ sid ss, if decide (u_id ss = uid) then Some (s_id ss) else sid)
            sockets None.

Definition get_user_id (sockets : list socket_storage) (sid : string) : option Z :=
  fold_left (λ uid ss, if decide (s_id ss = sid) then Some (u_id ss) else uid)
            sockets None.

(** The dict built by [get_message_dict], but for its ["time"] entry, which
    is the wall-clock [created_at]. *)
Definition message_dict (username : string) (message : Message.t) : pyval :=
  PyDict [("id", PyInt (Message.id message));
          ("u_id", PyInt (Message.u_id message));
          ("username", PyStr username);
          ("text", PyStr (Message.text message));
          ("message_type", PyEnum (Message.message_type message));
          ("reply_id", from_option PyInt PyNone (Message.reply_id message));
          ("replies", PyList [])]%string.

(** ** Queries (flask_sqlalchemy) *)

(** [Permission.query.filter_by(u_id=u).all()] *)
Definition permissions_of_user (d : DB) (u : Z) : list Permission.t :=
  filter (λ p, Permission.u_id p = u) (permissions d).

(** [Permission.query.filter_by(u_id=u, op_id=op).first()] *)
Definition permission_first (d : DB) (u op : Z) : option Permission.t :=
  head (filter (λ p, Permission.u_id p = u ∧ Permission.op_id p = op) (permissions d)).

(** [User.query.filter_by(id=i).first()] *)
Definition user_first (d : DB) (i : Z) : option User.t :=
  head (filter (λ u, User.id u = i) (users d)).

(** The next value of an autoincrement primary key. *)
Definition next_id (ids : list Z) : Z := 1 + foldr Z.max 0 ids.

(** [Message.replies]: the self-referential relationship over the foreign key
    [reply_id]. *)
Definition replies (tbl : list Message.t) (m_id : Z) : list Message.t :=
  filter (λ r, Message.reply_id r = Some m_id) tbl.

(** [cascade='all,delete,delete-orphan'] on [Message.replies]: deleting a
    message deletes the messages related to it through [replies], and theirs
    in turn. A chain of replies is no longer than the table, which bounds the
    descent. *)
Fixpoint cascade (depth : nat) (tbl : list Message.t) (m_id : Z) : list Z :=
  match depth with
  | O => [m_id]
  | S depth' =>
      m_id :: flat_map (λ r, cascade depth' tbl (Message.id r)) (replies tbl m_id)
  end.

Definition cascade_delete (tbl : list Message.t) (m_id : Z) : list Z :=
  cascade (length tbl) tbl m_id.

(** Python truth value of [None] or an int. *)
Definition truthy (o : option Z) : bool :=
  match o with
  | None => false
  | Some z => bool_decide (z ≠ 0)
  end.

(** ** Accessors for the manager's two attributes *)

Abbreviation active w := (active_users_per_operation (sm w)).

Definition with_active (f : pydict (gset Z) → pydict (gset Z)) : World → World :=
  with_sm (λ s, {| sockets := sockets s;
                   active_users_per_operation := f (active_users_per_operation s) |}).

Definition with_sockets (f : list socket_storage → list socket_storage)
    : World → World :=
  with_sm (λ s, {| sockets := f (sockets s);
                   active_users_per_operation := active_users_per_operation s |}).

(** [self.active_users_per_operation[op_id]] *)
Definition active_getitem (op_id : Z) : M (gset Z) :=
  λ w, match dict_get op_id (active w) with
       | Some s => (Ok s, w)
       | None => (Raise KeyError, w)
       end.

(** [del self.active_users_per_operation[op_id]] *)
Definition active_delitem (op_id : Z) : M unit :=
  λ w, match dict_get op_id (active w) with
       | Some _ => (Ok tt, with_active (dict_del op_id) w)
       | None => (Raise KeyError, w)
       end.

(** [get_message_dict(message)]; [message.user] is the row [u_id] refers to. *)
Definition get_message_dict (message : Message.t) : M pyval :=
  λ w, match user_first (db w) (Message.u_id message) with
       | Some u => (Ok (message_dict (User.username u) message), w)
       | None => (Raise AttributeError, w)
       end.

Definition active_user_update (op_id : Z) (count : Z) : payload :=
  Data (PyDict [("op_id", PyInt op_id); ("count", PyInt count)]%string).

(** The string an [access_level] enum value is in Python. *)
Definition access_level_name (a : AccessLevel) : string :=
  match a with
  | admin => "admin"
  | collaborator => "collaborator"
  | viewer => "viewer"
  | creator => "creator"
  end.

(** ** The server *)

Section Server.
(** [jwt.decode] with the server's secret: the [id] claim of a token that
    decodes and has not expired. *)
Variable jwt_decode : string → option Z.
(** Whether the file manager's write of a document goes through. *)
Variable store_write : Z → string → bool.
(** The version hash the file manager records for a written document. *)
Variable commit_hash_of : Z → string → string.

(** [User.verify_auth_token] (models.py) *)
Definition verify_auth_token (token : string) : M (option User.t) :=
  λ w, match jwt_decode token with
       | None => (Ok None, w)
       | Some i => (Ok (user_first (db w) i), w)
       end.

(** *** chat_manager.py and file_manager.py *)

(** Modelled from the spec: [ChatManager.add_message] is not part of the
    sources. "creates a Message (reply_id = -1 sentinel means top-level)". *)
Definition add_message (user : User.t) (text : string) (op_id : Z)
    (message_type : MessageType) (reply_id : option Z) : M Message.t :=
  λ w, let new_message :=
         Message.mk (next_id (Message.id <$> messages (db w))) op_id
                    (User.id user) text message_type
                    (if decide (reply_id = Some (-1)) then None else reply_id) in
       (Ok new_message,
        log (Commit (RowMessage new_message))
          (with_db (λ d, {| users := users d; permissions := permissions d;
                            messages := messages d ++ [new_message];
                            changes := changes d |}) w)).

(** Modelled from the spec: [ChatManager.edit_message] is not part of the
    sources. *)
Definition edit_message (message_id : Z) (new_message_text : string) : M unit :=
  modify (λ w,
    log (Commit (RowMessageEdited message_id new_message_text))
      (with_db (λ d, {| users := users d; permissions := permissions d;
                        messages :=
                          (λ m, if decide (Message.id m = message_id)
                                then Message.mk (Message.id m) (Message.op_id m)
                                       (Message.u_id m) new_message_text
                                       (Message.message_type m) (Message.reply_id m)
                                else m) <$> messages d;
                        changes := changes d |}) w)).

(** Modelled from the spec: [ChatManager.delete_message] is not part of the
    sources. It deletes the message through the session, so the cascade
    declared on [Message.replies] applies; a message that no longer exists
    is dropped. *)
Definition delete_message (message_id : Z) : M unit :=
  λ w, if decide (message_id ∈ Message.id <$> messages (db w)) then
         let gone := cascade_delete (messages (db w)) message_id in
         (Ok tt,
          log (Commit (RowMessagesDeleted gone))
            (with_db (λ d, {| users := users d; permissions := permissions d;
                              messages := filter (λ m, Message.id m ∉ gone) (messages d);
                              changes := changes d |}) w))
       else (Ok tt, w).

(** Modelled from the spec: [FileManager.save_file] is not part of the
    sources. "persists a new Change record and updates the document blob";
    it answers whether the write went through, and a write that did not
    leaves nothing behind. *)
Definition save_file (op_id : Z) (content : string) (user : User.t)
    (version_name : option string) (comment : option string) : M bool :=
  λ w, if store_write op_id content then
         let change :=
           Change.mk (next_id (Change.id <$> changes (db w))) op_id (User.id user)
                     (commit_hash_of op_id content) version_name comment in
         (Ok true,
          log (Commit (RowChange change))
            (with_files <[op_id := content]>
              (with_db (λ d, {| users := users d; permissions := permissions d;
                                messages := messages d;
                                changes := changes d ++ [change] |}) w)))
       else (Ok false, w).

(** *** sockets_manager.py *)

Definition update_active_users (user_id : Z) : M unit :=
  items ← gets (λ w, dict_items (active w));
  for_each items (λ '(op_id, user_ids),
    if decide (user_id ∈ user_ids) then
      (* [user_ids] is the set object the dict holds under [op_id]:
         [remove] changes it in place *)
      let user_ids := user_ids ∖ {[user_id]} in
      modify (with_active (dict_set op_id user_ids));;
      let active_count := Z.of_nat (size user_ids) in
      if decide (user_ids ≠ ∅) then
        socketio_emit "active-user-update" (active_user_update op_id active_count)
      else
        active_delitem op_id;;
        socketio_emit "active-user-update" (active_user_update op_id 0)
    else mret tt).

Definition remove_active_user_id_from_specific_operation (user_id op_id : Z)
    : M unit :=
  present ← gets (λ w, dict_get op_id (active w));
  match present with
  | None => mret tt
  | Some user_ids =>
      if decide (user_id ∈ user_ids) then
        let user_ids := user_ids ∖ {[user_id]} in
        modify (with_active (dict_set op_id user_ids));;
        let active_count := Z.of_nat (size user_ids) in
        if decide (user_ids ≠ ∅) then
          socketio_emit "active-user-update" (active_user_update op_id active_count)
        else
          active_delitem op_id;;
          socketio_emit "active-user-update" (active_user_update op_id 0)
      else mret tt
  end.

Definition handle_connect : M unit := mret tt.

Definition handle_operation_selected (token : string) (op_id : Z) : M unit :=
  user ← verify_auth_token token;
  match user with
  | None => mret tt
  | Some user =>
      update_active_users (User.id user);;
      present ← gets (λ w, dict_get op_id (active w));
      (if present is None then modify (with_active (dict_set op_id ∅))
       else mret tt);;
      user_ids ← active_getitem op_id;
      modify (with_active (dict_set op_id ({[User.id user]} ∪ user_ids)));;
      user_ids ← active_getitem op_id;
      let active_count := Z.of_nat (size user_ids) in
      socketio_emit "active-user-update" (active_user_update op_id active_count)
  end.

Definition update_operation_list (token : string) : M unit :=
  user ← verify_auth_token token;
  match user with
  | None => mret tt
  | Some _ => socketio_emit "operation-list-update" NoData
  end.

Definition join_creator_to_operation (request_sid token : string) (op_id : Z)
    : M unit :=
  user ← verify_auth_token token;
  match user with
  | None => mret tt
  | Some _ => join_room request_sid (str op_id)
  end.

Definition handle_start_event (request_sid token : string) : M unit :=
  user ← verify_auth_token token;
  match user with
  | None => mret tt
  | Some user =>
      permissions ← gets (λ w, permissions_of_user (db w) (User.id user));
      for_each permissions (λ permission,
        join_room request_sid (str (Permission.op_id permission)));;
      let socket_storage := {| s_id := request_sid; u_id := User.id user |} in
      modify (with_sockets (λ sockets, sockets ++ [socket_storage]))
  end.

Definition handle_disconnect (request_sid : string) : M unit :=
  user_id ← gets (λ w, get_user_id (sockets (sm w)) request_sid);
  (if truthy user_id then update_active_users (default 0 user_id) else mret tt);;
  modify (with_sockets (filter (λ d, s_id d ≠ request_sid))).

Definition permission_check_emit (u_id op_id : Z) : M bool :=
  permission ← gets (λ w, permission_first (db w) u_id op_id);
  match permission with
  | None => mret false
  | Some permission =>
      if decide (Permission.access_level permission = viewer) then mret false
      else mret true
  end.

Definition permission_check_admin (u_id op_id : Z) : M bool :=
  permission ← gets (λ w, permission_first (db w) u_id op_id);
  match permission with
  | None => raise AttributeError   (* [None.access_level] *)
  | Some permission =>
      if decide (Permission.access_level permission = creator
                 ∨ Permission.access_level permission = admin)
      then mret true else mret false
  end.

Definition handle_message (token : string) (op_id : Z) (message_text : string)
    (reply_id : Z) : M unit :=
  user ← verify_auth_token token;
  match user with
  | None => mret tt
  | Some user =>
      perm ← permission_check_emit (User.id user) op_id;
      if perm : bool then
        new_message ← add_message user message_text op_id TEXT (Some reply_id);
        new_message_dict ← get_message_dict new_message;
        if decide (reply_id = -1) then
          socketio_emit "chat-message-client" (Dumps new_message_dict)
        else
          socketio_emit "chat-message-reply-client" (Dumps new_message_dict)
      else mret tt
  end.

Definition handle_message_edit (token : string) (op_id message_id : Z)
    (new_message_text : string) : M unit :=
  user ← verify_auth_token token;
  match user with
  | None => mret tt
  | Some user =>
      perm ← permission_check_emit (User.id user) op_id;
      if perm : bool then
        edit_message message_id new_message_text;;
        socketio_emit "edit-message-client"
          (Dumps (PyDict [("message_id", PyInt message_id);
                          ("new_message_text", PyStr new_message_text)]%string))
      else mret tt
  end.

Definition handle_message_delete (token : string) (op_id message_id : Z) : M unit :=
  user ← verify_auth_token token;
  match user with
  | None => mret tt
  | Some user =>
      perm ← permission_check_emit (User.id user) op_id;
      if perm : bool then
        delete_message message_id;;
        socketio_emit "delete-message-client"
          (Dumps (PyDict [("message_id", PyInt message_id)]%string))
      else mret tt
  end.

(** The text an f-string puts for a value that may be [None]. *)
Definition fmt (o : option string) : string := default "None"%string o.

(** [json_req.get('comment', '')], [.get('version_name', None)] and
    [.get('messageText')] are the optional keys. *)
Definition handle_file_save (token : string) (op_id : Z) (content : string)
    (comment version_name messageText : option string) : M unit :=
  let comment := default EmptyString comment in
  user ← verify_auth_token token;
  match user with
  | None => mret tt
  | Some user =>
      perm ← permission_check_emit (User.id user) op_id;
      saved ← (if perm : bool
               then save_file op_id content user version_name (Some comment)
               else mret false);
      if saved : bool then
        let message_ := ("[service message] **" +:+ User.username user +:+
                         "** saved changes. " +:+ fmt messageText)%string in
        new_message ← add_message user message_ op_id SYSTEM_MESSAGE None;
        new_message_dict ← get_message_dict new_message;
        socketio_emit "chat-message-client" (Dumps new_message_dict);;
        socketio_emit "file-changed"
          (Dumps (PyDict [("op_id", PyInt op_id);
                          ("u_id", PyInt (User.id user))]%string))
      else mret tt
  end.

Definition emit_file_change (op_id : Z) : M unit :=
  socketio_emit "file-changed" (Dumps (PyDict [("op_id", PyInt op_id)]%string)).

Definition emit_new_permission (u_id op_id : Z) : M unit :=
  socketio_emit "new-permission"
    (Dumps (PyDict [("op_id", PyInt op_id); ("u_id", PyInt u_id)]%string)).

(** [access_level=None] asks the database; [perm.access_level] on a missing
    row raises. *)
Definition emit_update_permission (u_id op_id : Z) (access_level : option string)
    : M unit :=
  access_level ←
    match access_level with
    | Some access_level => mret access_level
    | None =>
        perm ← gets (λ w, permission_first (db w) u_id op_id);
        match perm with
        | None => raise AttributeError
        | Some perm => mret (access_level_name (Permission.access_level perm))
        end
    end;
  socketio_emit "update-permission"
    (Dumps (PyDict [("op_id", PyInt op_id); ("u_id", PyInt u_id);
                    ("access_level", PyStr access_level)]%string)).

Definition emit_revoke_permission (u_id op_id : Z) : M unit :=
  socketio_emit "revoke-permission"
    (Dumps (PyDict [("op_id", PyInt op_id); ("u_id", PyInt u_id)]%string)).

Definition emit_operation_permissions_updated (u_id op_id : Z) : M unit :=
  socketio_emit "operation-permissions-updated"
    (Dumps (PyDict [("op_id", PyInt op_id); ("u_id", PyInt u_id)]%string)).

Definition emit_operation_delete (op_id : Z) : M unit :=
  socketio_emit "operation-deleted" (Dumps (PyDict [("op_id", PyInt op_id)]%string)).

(** *** Event registration ([_setup_managers]) *)

Inductive event :=
| connect
| start (token : string)
| disconnect
| chat_message (token : string) (op_id : Z) (message_text : string) (reply_id : Z)
| edit_message_ev (token : string) (op_id message_id : Z) (new_message_text : string)
| delete_message_ev (token : string) (op_id message_id : Z)
| file_save (token : string) (op_id : Z) (content : string)
            (comment version_name messageText : option string)
| add_user_to_operation (token : string) (op_id : Z)
| update_operation_list_ev (token : string)
| operation_selected (token : string) (op_id : Z).

Definition on_event (request_sid : string) (ev : event) : M unit :=
  match ev with
  | connect => handle_connect
  | start token => handle_start_event request_sid token
  | disconnect => handle_disconnect request_sid
  | chat_message token op_id text reply_id => handle_message token op_id text reply_id
  | edit_message_ev token op_id message_id text =>
      handle_message_edit token op_id message_id text
  | delete_message_ev token op_id message_id =>
      handle_message_delete token op_id message_id
  | file_save token op_id content comment version_name messageText =>
      handle_file_save token op_id content comment version_name messageText
  | add_user_to_operation token op_id =>
      join_creator_to_operation request_sid token op_id
  | update_operation_list_ev token => update_operation_list token
  | operation_selected token op_id => handle_operation_selected token op_id
  end.

(** What happens to the server: a client event, dispatched to its handler
    (the framework opens a connection in the room named after its session
    id before [connect] and closes it after [disconnect]), or the HTTP side
    changing the database. *)
Inductive input :=
| Inbound (request_sid : string) (ev : event)
| StoreChanged (d : DB).

Definition step (w : World) (i : input) : World :=
  match i with
  | Inbound sid connect =>
      exec handle_connect (with_rooms <[sid := {[sid]}]> w)
  | Inbound sid disconnect =>
      with_rooms (delete sid) (exec (handle_disconnect sid) w)
  | Inbound sid ev => exec (on_event sid ev) w
  | StoreChanged d => with_db (λ _, d) w
  end.

Definition run (w : World) (inputs : list input) : World :=
  fold_left step inputs w.

End Server.

(** ** Properties stated about the server *)

(** Python's [d1 == d2] on dicts: the same keys with equal values, whatever
    the insertion order. *)
Definition dict_eq {V} (d1 d2 : pydict V) : Prop :=
  ∀ k, dict_get k d1 = dict_get k d2.

(** No user id is in the presence set of two operations. *)
Definition presence_unique (d : pydict (gset Z)) : Prop :=
  ∀ u k1 k2 s1 s2,
    dict_get k1 d = Some s1 → dict_get k2 d = Some s2 →
    u ∈ s1 → u ∈ s2 → k1 = k2.

(** What [update_active_users u] leaves under a key. *)
Definition drop_user (u : Z) (o : option (gset Z)) : option (gset Z) :=
  match o with
  | None => None
  | Some s =>
      if decide (u ∈ s) then
        if decide (s ∖ {[u]} ≠ ∅) then Some (s ∖ {[u]}) else None
      else Some s
  end.

(** The rooms a connection is in. *)
Definition rooms_of (w : World) (sid : string) : gset string :=
  default ∅ (sio_rooms w !! sid).

(** The effects a computation adds to the trace. *)
Definition effects_of {A} (m : M A) (w : World) : list Effect :=
  drop (length (trace w)) (trace (exec m w)).

(** An effect that is an emission without [to], handed to every client
    connected in [w]. *)
Definition broadcast (w : World) (ef : Effect) : Prop :=
  ∃ e, ef = Emit e ∧ em_to e = None ∧ em_recipients e = dom (sio_rooms w).

Definition is_event (name : string) (ef : Effect) : Prop :=
  ∃ e, ef = Emit e ∧ em_event e = name.

(** A world as it is when the server starts. *)
Definition initial (d : DB) (f : gmap Z string) : World :=
  {| sm := SocketsManager_init; db := d; files := f; sio_rooms := ∅; trace := [] |}.

(** Top-level messages: no [reply_id], or the sentinel. *)
Definition top_level (m : Message.t) : Prop :=
  Message.reply_id m = None ∨ Message.reply_id m = Some (-1).

(** [w'] differs from [w] by changes to the presence dict and by broadcast
    [active-user-update] emissions only. *)
Definition presence_step (w w' : World) : Prop :=
  sockets (sm w') = sockets (sm w) ∧ db w' = db w ∧ files w' = files w ∧
  sio_rooms w' = sio_rooms w ∧
  ∃ es, trace w' = trace w ++ es ∧
        Forall (λ ef, broadcast w ef ∧ is_event "active-user-update" ef) es.

(** The body of the loop of [update_active_users]. *)
Definition uau_body (user_id : Z) : Z * gset Z → M unit :=
  λ '(op_id, user_ids),
    if decide (user_id ∈ user_ids) then
      let user_ids := user_ids ∖ {[user_id]} in
      modify (with_active (dict_set op_id user_ids));;
      let active_count := Z.of_nat (size user_ids) in
      if decide (user_ids ≠ ∅) then
        socketio_emit "active-user-update" (active_user_update op_id active_count)
      else
        active_delitem op_id;;
        socketio_emit "active-user-update" (active_user_update op_id 0)
    else mret tt.

(** The rooms after the [join_room] loop of [handle_start_event]. *)
Definition joined (sid : string) (ps : list Permission.t)
    (rooms : gmap string (gset string)) : gmap string (gset string) :=
  fold_left (λ rooms p,
               <[sid := {[str (Permission.op_id p)]} ∪ default ∅ (rooms !! sid)]> rooms)
            ps rooms.

(** Unique keys and no user in two presence sets. *)
Definition presence_inv (w : World) : Prop :=
  dict_wf (active w) ∧ presence_unique (active w).

(** [User.generate_auth_token] (models.py). [settings_EXPIRATION] is the
    entry ['EXPIRATION'] of the settings dict when there is one, [now] the
    clock in seconds, [jwt_encode id exp] the encoded token. The [return]
    stands inside the [if]: with an expiration at hand the method falls off
    its end and answers [None]. *)
Definition generate_auth_token (jwt_encode : Z → Z → string)
    (settings_EXPIRATION : option (option Z)) (now : Z)
    (user : User.t) (expiration : option Z) : option string :=
  let expiration := match settings_EXPIRATION with
                    | Some configured => configured
                    | None => expiration
                    end in
  match expiration with
  | None =>
      let expiration := 864000 in
      Some (jwt_encode (User.id user) (now + expiration))
  | Some _ => None
  end.

(** The token an event carries. *)
Definition token_of (ev : event) : option string :=
  match ev with
  | connect | disconnect => None
  | start token | chat_message token _ _ _ | edit_message_ev token _ _ _
  | delete_message_ev token _ _ | file_save token _ _ _ _ _
  | add_user_to_operation token _ | update_operation_list_ev token
  | operation_selected token _ => Some token
  end.

(** An effect that is not an emission into a room or to one client. *)
Definition unscoped (ef : Effect) : Prop :=
  match ef with
  | Emit e => em_to e = None
  | Commit _ => True
  end.

(** No key of the presence dict holds an empty set. *)
Definition presence_nonempty (d : pydict (gset Z)) : Prop :=
  ∀ k s, dict_get k d = Some s → s ≠ ∅.

(** The update [update_active_users u] emits for the entry [(op_id, user_ids)]
    of the dict. *)
Definition uau_emission (w : World) (u : Z) (kv : Z * gset Z) : Effect :=
  Emit {| em_event := "active-user-update";
          em_data := active_user_update kv.1 (Z.of_nat (size (kv.2 ∖ {[u]})));
          em_to := None;
          em_recipients := dom (sio_rooms w) |}.

(** The two-level convention: no reply has replies. *)
Definition two_level (tbl : list Message.t) : Prop :=
  ∀ r, r ∈ tbl → is_Some (Message.reply_id r) → replies tbl (Message.id r) = [].

(** ** A concrete deployment, for evaluation *)

Module Demo.
Definition decode (t : string) : option Z :=
  if decide (t = "tokA"%string) then Some 1
  else if decide (t = "tokB"%string) then Some 2
  else if decide (t = "tokC"%string) then Some 3 else None.
Definition write_ok (op_id : Z) (content : string) : bool :=
  bool_decide (content ≠ EmptyString).
Definition hash (op_id : Z) (content : string) : string :=
  ("h" +:+ str op_id +:+ content)%string.

Definition encode (id exp : Z) : string :=
  if decide (id = 1) then "tokA"
  else if decide (id = 2) then "tokB"
  else if decide (id = 3) then "tokC" else "tok?".

Definition alice := User.mk 1 "alice" "alice@example.org".
Definition bob := User.mk 2 "bob" "bob@example.org".
Definition carol := User.mk 3 "carol" "carol@example.org".

(** alice created operation 42, bob may only view it, carol has no
    permission on it. *)
Definition db0 : DB :=
  {| users := [alice; bob; carol];
     permissions := [Permission.mk 1 42 1 creator; Permission.mk 2 42 2 viewer;
                     Permission.mk 3 7 1 collaborator];
     messages := []; changes := [] |}.

Definition sidA : string := "sidA".
Definition sidB : string := "sidB".
Definition sidC : string := "sidC".

Definition serve : World → list input → World := run decode write_ok hash.

(** Three clients connect and authenticate. *)
Definition boot : list input :=
  [Inbound sidA connect; Inbound sidB connect; Inbound sidC connect;
   Inbound sidA (start "tokA"); Inbound sidB (start "tokB");
   Inbound sidC (start "tokC")].

(** alice and bob select operation 42. *)
Definition selects : list input :=
  [Inbound sidA (operation_selected "tokA" 42);
   Inbound sidB (operation_selected "tokB" 42)].

(** alice posts a message, a reply to it, and a reply to that reply. *)
Definition chat : list input :=
  [Inbound sidA (chat_message "tokA" 42 "hello" (-1));
   Inbound sidA (chat_message "tokA" 42 "re: hello" 1);
   Inbound sidA (chat_message "tokA" 42 "re: re: hello" 2)].

Definition w0 : World := serve (initial db0 ∅) boot.
Definition w1 : World := serve (initial db0 ∅) (boot ++ selects).
Definition w2 : World := serve (initial db0 ∅) (boot ++ selects ++ chat).

Definition m1 := Message.mk 1 42 1 "hello" TEXT None.
Definition m2 := Message.mk 2 42 1 "re: hello" TEXT (Some 1).
Definition m3 := Message.mk 3 42 1 "re: re: hello" TEXT (Some 2).
End Demo.

(** * Proofs *)

(** ** The dict operations *)

Section pydict_facts.
Context {V : Type}.
Implicit Types (d : pydict V) (k : Z) (v : V).

Lemma dict_get_set_eq k v d : dict_get k (dict_set k v d) = Some v.
Proof.
  induction d as [|[k' v'] d IH]; simpl.
  - by rewrite decide_True.
  - destruct (decide (k' = k)) as [->|Hne]; simpl.
    + by rewrite decide_True.
    + by rewrite decide_False.
Qed.

Lemma dict_get_set_ne k k' v d :
  k ≠ k' → dict_get k' (dict_set k v d) = dict_get k' d.
Proof.
  intros Hne. induction d as [|[k0 v0] d IH]; simpl.
  - by rewrite decide_False.
  - destruct (decide (k0 = k)) as [->|Hk0]; simpl.
    + by rewrite !decide_False.
    + by rewrite IH.
Qed.

Lemma dict_get_set k k' v d :
  dict_get k' (dict_set k v d) = if decide (k' = k) then Some v else dict_get k' d.
Proof.
  destruct (decide (k' = k)) as [->|Hne].
  - apply dict_get_set_eq.
  - by apply dict_get_set_ne.
Qed.

Lemma dict_get_del k k' d :
  dict_get k' (dict_del k d) = if decide (k' = k) then None else dict_get k' d.
Proof.
  unfold dict_del. induction d as [|[k0 v0] d IH].
  - simpl. by destruct (decide (k' = k)).
  - rewrite filter_cons. cbn [fst dict_get].
    destruct (decide (k0 ≠ k)) as [Hk0|Hk0]; cbn [dict_get].
    + rewrite IH. destruct (decide (k0 = k')) as [->|?]; [|done].
      by rewrite decide_False.
    + apply dec_stable in Hk0 as ->. rewrite IH.
      destruct (decide (k' = k)) as [->|?]; [done|]. by rewrite decide_False.
Qed.

Lemma dict_get_None k d : dict_get k d = None ↔ k ∉ dict_keys d.
Proof.
  unfold dict_keys. induction d as [|[k0 v0] d IH]; simpl.
  - split; [intros _; apply not_elem_of_nil|done].
  - rewrite not_elem_of_cons. destruct (decide (k0 = k)) as [->|Hne].
    + split; [done|]. intros [? _]. done.
    + rewrite IH. split; [intros ?; split; [done|done]|by intros [_ ?]].
Qed.

Lemma dict_get_elem_of k v d : dict_wf d → (k, v) ∈ d → dict_get k d = Some v.
Proof.
  unfold dict_wf, dict_keys. induction d as [|[k0 v0] d IH]; simpl.
  - intros _ Hin. by apply elem_of_nil in Hin.
  - intros [Hk0 Hnd]%NoDup_cons [Heq|Hin]%elem_of_cons.
    + injection Heq as -> ->. by rewrite decide_True.
    + destruct (decide (k0 = k)) as [->|?]; [|by apply IH].
      exfalso. apply Hk0. apply list_elem_of_fmap. by exists (k, v).
Qed.

Lemma dict_keys_set_present k v d :
  k ∈ dict_keys d → dict_keys (dict_set k v d) = dict_keys d.
Proof.
  unfold dict_keys. induction d as [|[k0 v0] d IH]; simpl.
  - intros Hin. by apply elem_of_nil in Hin.
  - intros Hin. destruct (decide (k0 = k)) as [->|Hne]; simpl; [done|].
    f_equal. apply IH. apply elem_of_cons in Hin as [?|?]; [congruence|done].
Qed.

Lemma dict_keys_set_absent k v d :
  k ∉ dict_keys d → dict_keys (dict_set k v d) = dict_keys d ++ [k].
Proof.
  unfold dict_keys. induction d as [|[k0 v0] d IH]; simpl; [done|].
  intros [Hne Hin]%not_elem_of_cons.
  rewrite decide_False by done. simpl. f_equal. by apply IH.
Qed.

Lemma dict_wf_set k v d : dict_wf d → dict_wf (dict_set k v d).
Proof.
  unfold dict_wf. intros Hwf.
  destruct (decide (k ∈ dict_keys d)) as [Hin|Hin].
  - by rewrite dict_keys_set_present.
  - rewrite dict_keys_set_absent by done.
    apply NoDup_app. split; [done|]. split; [|apply NoDup_singleton].
    intros x Hx ->%list_elem_of_singleton. done.
Qed.

Lemma dict_wf_del k d : dict_wf d → dict_wf (dict_del k d).
Proof.
  unfold dict_wf, dict_keys, dict_del. induction d as [|[k0 v0] d IH]; [done|].
  rewrite fmap_cons, filter_cons. cbn [fst].
  intros [Hk0 Hnd]%NoDup_cons.
  destruct (decide (k0 ≠ k)); [rewrite fmap_cons; cbn [fst]|by apply IH].
  apply NoDup_cons. split; [|by apply IH].
  intros ([k1 v1] & -> & Hin)%list_elem_of_fmap.
  apply list_elem_of_filter in Hin as [_ Hin].
  apply Hk0. apply list_elem_of_fmap. by exists (k1, v1).
Qed.
End pydict_facts.

(** ** Running handlers *)

Ltac munfold :=
  unfold mbind, M_bind, mret, M_ret, gets, modify, raise,
         socketio_emit, sio_emit, active_delitem, active_getitem in *.


Lemma presence_step_refl w : presence_step w w.
Proof.
  repeat split; try done. exists []. by rewrite app_nil_r.
Qed.

Lemma presence_step_trans w1 w2 w3 :
  presence_step w1 w2 → presence_step w2 w3 → presence_step w1 w3.
Proof.
  intros (Hs1 & Hd1 & Hf1 & Hr1 & es1 & Ht1 & Hes1) (Hs2 & Hd2 & Hf2 & Hr2 & es2 & Ht2 & Hes2).
  repeat split; try congruence.
  exists (es1 ++ es2). split.
  - rewrite Ht2, Ht1. by rewrite app_assoc.
  - apply Forall_app. split; [done|].
    eapply Forall_impl; [exact Hes2|]. intros ef [(e & -> & Hto & Hrec) Hev].
    split; [|done]. exists e. repeat split; [done|congruence].
Qed.

Lemma presence_step_emit w f op_id count :
  presence_step w
    (log (Emit {| em_event := "active-user-update";
                  em_data := active_user_update op_id count;
                  em_to := None;
                  em_recipients := recipients (sio_rooms w) None |})
         (with_active f w)).
Proof.
  repeat split; try done. eexists [_]. split; [done|].
  apply Forall_singleton. split; eexists; (split; [done|]); done.
Qed.

(** ** [update_active_users] *)


Lemma update_active_users_unfold u w :
  update_active_users u w = for_each (active w) (uau_body u) w.
Proof. reflexivity. Qed.

(** One iteration on the entry [(k, s)] never raises, and under [k] leaves
    what [drop_user] says. *)
Lemma uau_body_spec u k s w :
  ∃ w', uau_body u (k, s) w = (Ok tt, w') ∧ presence_step w w' ∧
        (dict_wf (active w) → dict_wf (active w')) ∧
        ∀ k', dict_get k' (active w') =
              if decide (k' = k)
              then (if decide (u ∈ s) then drop_user u (Some s)
                    else dict_get k' (active w))
              else dict_get k' (active w).
Proof.
  unfold uau_body. destruct (decide (u ∈ s)) as [Hin|Hin].
  - destruct (decide (s ∖ {[u]} ≠ ∅)) as [Hne|He].
    + munfold. cbn. eexists. split; [reflexivity|].
      split; [apply presence_step_emit|]. split.
      * intros Hwf. by apply dict_wf_set.
      * intros k'. cbn. rewrite dict_get_set.
        destruct (decide (k' = k)); [|done].
        unfold drop_user. by rewrite !decide_True.
    + munfold. cbn. rewrite dict_get_set_eq. cbn.
      eexists. split; [reflexivity|].
      split; [apply (presence_step_emit w (λ d, dict_del k (dict_set k _ d)))|]. split.
      * intros Hwf. cbn. by apply dict_wf_del, dict_wf_set.
      * intros k'. cbn. rewrite dict_get_del, dict_get_set.
        destruct (decide (k' = k)); [|done].
        unfold drop_user. rewrite decide_True by done. by rewrite decide_False.
  - exists w. split; [done|]. split; [apply presence_step_refl|]. split; [done|].
    intros k'. by destruct (decide (k' = k)).
Qed.

Lemma uau_loop_spec u l : ∀ w,
  ∃ w', for_each l (uau_body u) w = (Ok tt, w') ∧ presence_step w w' ∧
        (dict_wf (active w) → dict_wf (active w')) ∧
        (NoDup l.*1 → (∀ k s, (k, s) ∈ l → dict_get k (active w) = Some s) →
         ∀ k, dict_get k (active w') =
              if decide (k ∈ l.*1) then drop_user u (dict_get k (active w))
              else dict_get k (active w)).
Proof.
  induction l as [|[k s] l IH]; intros w.
  - exists w. split; [done|]. split; [apply presence_step_refl|]. split; [done|].
    intros _ _ k'. rewrite decide_False; [done|apply not_elem_of_nil].
  - destruct (uau_body_spec u k s w) as (w1 & Hrun1 & Hstep1 & Hwf1 & Hget1).
    destruct (IH w1) as (w2 & Hrun2 & Hstep2 & Hwf2 & Hget2).
    exists w2. split.
    { cbn [for_each]. unfold mbind at 1, M_bind at 1. by rewrite Hrun1. }
    split; [by eapply presence_step_trans|]. split; [by auto|].
    rewrite fmap_cons. cbn [fst]. intros [Hk Hnd]%NoDup_cons Hl k'.
    assert (Hks : dict_get k (active w) = Some s) by (apply Hl; left).
    rewrite Hget2; [|done|].
    + rewrite !Hget1. destruct (decide (k' = k)) as [->|Hne].
      * rewrite (decide_False (P := k ∈ l.*1)) by done.
        rewrite (decide_True (P := k ∈ k :: l.*1)) by left.
        rewrite Hks. destruct (decide (u ∈ s)) as [Hin|Hin]; [done|].
        cbn. by rewrite decide_False.
      * destruct (decide (k' ∈ l.*1)) as [Hin|Hin].
        -- by rewrite (decide_True (P := k' ∈ k :: l.*1)) by (by right).
        -- rewrite (decide_False (P := k' ∈ k :: l.*1)); [done|].
           by intros [?|?]%elem_of_cons.
    + intros k0 s0 Hin0. rewrite Hget1. rewrite decide_False.
      * apply Hl. by right.
      * intros ->. apply Hk. apply list_elem_of_fmap. by exists (k, s0).
Qed.

(** [update_active_users u] always returns; on a dict with unique keys it
    takes [u] out of every set and deletes the keys whose set becomes empty. *)
Lemma update_active_users_spec u w :
  ∃ w', update_active_users u w = (Ok tt, w') ∧ presence_step w w' ∧
        (dict_wf (active w) → dict_wf (active w')) ∧
        (dict_wf (active w) →
         ∀ k, dict_get k (active w') = drop_user u (dict_get k (active w))).
Proof.
  rewrite update_active_users_unfold.
  destruct (uau_loop_spec u (active w) w) as (w' & Hrun & Hstep & Hwf & Hget).
  exists w'. split; [done|]. split; [done|]. split; [done|].
  intros Hd k. rewrite Hget; [|done|].
  - destruct (decide (k ∈ (active w).*1)) as [Hin|Hin]; [done|].
    apply dict_get_None in Hin. by rewrite Hin.
  - intros k0 s0 Hin. by apply dict_get_elem_of.
Qed.

(** ** Handlers *)

Section handlers.
Variable jwt_decode : string → option Z.
Variable store_write : Z → string → bool.
Variable commit_hash_of : Z → string → string.

Lemma verify_auth_token_inv token w r w' :
  verify_auth_token jwt_decode token w = (r, w') → w' = w ∧ ∃ o, r = Ok o.
Proof.
  unfold verify_auth_token. destruct (jwt_decode token); intros [= <- <-]; eauto.
Qed.

(** A verified user is the row of the table with its own id. *)
Lemma verify_auth_token_user token w user :
  verify_auth_token jwt_decode token w = (Ok (Some user), w) →
  user_first (db w) (User.id user) = Some user.
Proof.
  unfold verify_auth_token, user_first.
  destruct (jwt_decode token) as [i|]; [|done]. intros [= Hu].
  assert (User.id user = i) as ->; [|done].
  apply head_Some_elem_of in Hu. by apply list_elem_of_filter in Hu as [? _].
Qed.

(** [operation-selected] from a verified user: what the presence dict holds
    afterwards. *)
Lemma handle_operation_selected_spec token op_id w user :
  verify_auth_token jwt_decode token w = (Ok (Some user), w) →
  ∃ w', handle_operation_selected jwt_decode token op_id w = (Ok tt, w') ∧
        presence_step w w' ∧
        (dict_wf (active w) → dict_wf (active w')) ∧
        (dict_wf (active w) →
         ∀ k, dict_get k (active w') =
              if decide (k = op_id)
              then Some ({[User.id user]} ∪
                         default ∅ (drop_user (User.id user) (dict_get op_id (active w))))
              else drop_user (User.id user) (dict_get k (active w))) ∧
        ∃ es user_ids,
          dict_get op_id (active w') = Some user_ids ∧
          trace w' = trace w ++ es ++
            [Emit {| em_event := "active-user-update";
                     em_data := active_user_update op_id (Z.of_nat (size user_ids));
                     em_to := None;
                     em_recipients := dom (sio_rooms w) |}].
Proof.
  intros Hv. unfold handle_operation_selected.
  unfold mbind at 1, M_bind at 1. rewrite Hv.
  destruct (update_active_users_spec (User.id user) w)
    as (w1 & Hrun1 & Hstep1 & Hwf1 & Hget1).
  unfold mbind at 1, M_bind at 1. rewrite Hrun1.
  munfold. cbn.
  destruct (dict_get op_id (active w1)) as [s1|] eqn:Hop; cbn.
  - rewrite Hop. cbn. rewrite dict_get_set_eq. cbn.
    eexists. split; [reflexivity|]. split; [|split; [|split]].
    + eapply presence_step_trans; [exact Hstep1|].
      apply (presence_step_emit w1 (dict_set op_id _)).
    + intros Hwf. cbn. by apply dict_wf_set, Hwf1.
    + intros Hwf k. cbn. rewrite dict_get_set.
      destruct (decide (k = op_id)) as [->|Hne]; [|by apply Hget1].
      by rewrite <- Hget1, Hop.
    + destruct Hstep1 as (_ & _ & _ & Hr1 & es & Ht1 & _).
      exists es. eexists. cbn. rewrite dict_get_set_eq. split; [done|].
      by rewrite Ht1, Hr1, <- app_assoc.
  - rewrite dict_get_set_eq. cbn. rewrite dict_get_set_eq. cbn.
    eexists. split; [reflexivity|]. split; [|split; [|split]].
    + eapply presence_step_trans; [exact Hstep1|].
      apply (presence_step_emit w1 (λ d, dict_set op_id _ (dict_set op_id _ d))).
    + intros Hwf. cbn. by apply dict_wf_set, dict_wf_set, Hwf1.
    + intros Hwf k. cbn. rewrite !dict_get_set.
      destruct (decide (k = op_id)) as [->|Hne]; [|by apply Hget1].
      by rewrite <- Hget1, Hop.
    + destruct Hstep1 as (_ & _ & _ & Hr1 & es & Ht1 & _).
      exists es. eexists. cbn. rewrite dict_get_set_eq. split; [done|].
      by rewrite Ht1, Hr1, <- app_assoc.
Qed.

(** Without a verified user nothing happens. *)
Lemma handle_operation_selected_anonymous token op_id w :
  verify_auth_token jwt_decode token w = (Ok None, w) →
  handle_operation_selected jwt_decode token op_id w = (Ok tt, w).
Proof.
  intros Hv. unfold handle_operation_selected.
  unfold mbind at 1, M_bind at 1. by rewrite Hv.
Qed.

(** [operation-selected] never raises and only touches presence. *)
Lemma handle_operation_selected_step token op_id w :
  ∃ w', handle_operation_selected jwt_decode token op_id w = (Ok tt, w') ∧
        presence_step w w' ∧ (dict_wf (active w) → dict_wf (active w')).
Proof.
  destruct (verify_auth_token jwt_decode token w) as [r w0] eqn:Hv.
  destruct (verify_auth_token_inv _ _ _ _ Hv) as [-> [[user|] ->]].
  - destruct (handle_operation_selected_spec token op_id w user Hv)
      as (w' & ? & ? & ? & _). eauto.
  - exists w. split; [by apply handle_operation_selected_anonymous|].
    split; [apply presence_step_refl|done].
Qed.

(** *** disconnect *)

Lemma get_user_id_absent sockets sid acc :
  Forall (λ d, s_id d ≠ sid) sockets →
  fold_left (λ uid ss, if decide (s_id ss = sid) then Some (u_id ss) else uid)
            sockets acc = acc.
Proof.
  intros Hall. revert acc. induction Hall as [|d l Hd _ IH]; intros acc; [done|].
  cbn. rewrite decide_False by done. apply IH.
Qed.

Lemma filter_other_sid sockets sid :
  Forall (λ d, s_id d ≠ sid) (filter (λ d, s_id d ≠ sid) sockets).
Proof. apply Forall_forall. by intros d [? _]%list_elem_of_filter. Qed.

Lemma filter_all {A} (P : A → Prop) `{!∀ x, Decision (P x)} (l : list A) :
  Forall P l → filter P l = l.
Proof.
  induction 1 as [|x l Hx _ IH]; [done|].
  rewrite filter_cons, decide_True by done. by rewrite IH.
Qed.

Lemma with_sockets_id f w :
  f (sockets (sm w)) = sockets (sm w) → with_sockets f w = w.
Proof.
  destruct w as [[so ac] d fl ro tr]. unfold with_sockets, with_sm. cbn.
  by intros ->.
Qed.

(** [disconnect] never raises: presence is updated for the registered user
    (if its id is truthy), then the registry entries of the connection go. *)
Lemma handle_disconnect_spec sid w :
  ∃ w1, handle_disconnect sid w
          = (Ok tt, with_sockets (filter (λ d, s_id d ≠ sid)) w1) ∧
        presence_step w w1 ∧
        (dict_wf (active w) → dict_wf (active w1)) ∧
        (dict_wf (active w) →
         ∀ k, dict_get k (active w1) =
              if truthy (get_user_id (sockets (sm w)) sid)
              then drop_user (default 0 (get_user_id (sockets (sm w)) sid))
                             (dict_get k (active w))
              else dict_get k (active w)).
Proof.
  unfold handle_disconnect. munfold.
  destruct (truthy (get_user_id (sockets (sm w)) sid)) eqn:Ht.
  - destruct (update_active_users_spec
                (default 0 (get_user_id (sockets (sm w)) sid)) w)
      as (w1 & Hrun & Hstep & Hwf & Hget).
    exists w1. rewrite Hrun. done.
  - exists w. split; [done|]. split; [apply presence_step_refl|done].
Qed.

(** *** start *)


Lemma with_rooms_id w : with_rooms (λ rooms, rooms) w = w.
Proof. by destruct w. Qed.

Lemma join_rooms_run sid ps : ∀ w,
  for_each ps (λ p, join_room sid (str (Permission.op_id p))) w
  = (Ok tt, with_rooms (joined sid ps) w).
Proof.
  induction ps as [|p ps IH]; intros w.
  - cbn. unfold mret, M_ret. by rewrite with_rooms_id.
  - cbn [for_each]. unfold mbind, M_bind, join_room, modify. by rewrite IH.
Qed.

Lemma joined_other sid sid' ps : ∀ rooms,
  sid' ≠ sid → joined sid ps rooms !! sid' = rooms !! sid'.
Proof.
  unfold joined. induction ps as [|p ps IH]; intros rooms Hne; [done|].
  cbn. rewrite IH by done. by rewrite lookup_insert_ne.
Qed.

Lemma joined_self sid ps : ∀ rooms,
  default ∅ (joined sid ps rooms !! sid)
  = default ∅ (rooms !! sid) ∪ list_to_set (str ∘ Permission.op_id <$> ps).
Proof.
  clear jwt_decode store_write commit_hash_of.
  unfold joined. induction ps as [|p ps IH]; intros rooms.
  - cbn. set_solver.
  - cbn. rewrite IH, lookup_insert_eq. cbn. set_solver.
Qed.

(** *** the permission checks *)

Lemma permission_check_emit_run u op w :
  permission_check_emit u op w
  = (Ok (match permission_first (db w) u op with
         | Some p => bool_decide (Permission.access_level p ≠ viewer)
         | None => false
         end), w).
Proof.
  unfold permission_check_emit. munfold.
  destruct (permission_first (db w) u op) as [p|]; [|done].
  destruct (decide (Permission.access_level p = viewer)) as [Hv|Hv].
  - by rewrite bool_decide_eq_false_2 by (by intros ?).
  - by rewrite bool_decide_eq_true_2.
Qed.

Lemma permission_check_admin_run u op w :
  permission_check_admin u op w
  = (match permission_first (db w) u op with
     | Some p => Ok (bool_decide (Permission.access_level p = creator
                                  ∨ Permission.access_level p = admin))
     | None => Raise AttributeError
     end, w).
Proof.
  unfold permission_check_admin. munfold.
  destruct (permission_first (db w) u op) as [p|]; [|done].
  destruct (decide _) as [Hv|Hv].
  - by rewrite bool_decide_eq_true_2.
  - by rewrite bool_decide_eq_false_2.
Qed.

(** *** the handlers that leave presence alone *)

Ltac run_handler :=
  unfold exec, handle_connect, handle_start_event, handle_message,
    handle_message_edit, handle_message_delete, handle_file_save,
    join_creator_to_operation, update_operation_list,
    add_message, edit_message, delete_message, save_file, get_message_dict,
    verify_auth_token;
  repeat first
    [ rewrite permission_check_emit_run
    | rewrite join_rooms_run
    | progress (unfold mbind, M_bind, mret, M_ret, gets, modify, raise,
                       socketio_emit, sio_emit)
    | progress cbn
    | progress simplify_eq
    | case_match ];
  try (unfold join_room, modify; cbn).

Lemma on_event_active sid ev w :
  ev ≠ disconnect → (∀ token op_id, ev ≠ operation_selected token op_id) →
  active (exec (on_event jwt_decode store_write commit_hash_of sid ev) w) = active w.
Proof.
  intros Hd Hs.
  destruct ev as [| | | | | | | | |tok op]; try done; cbn [on_event];
    try by run_handler.
  by destruct (Hs tok op).
Qed.

(** *** the presence invariant *)

Lemma exec_run {A} (m : M A) w r w' : m w = (r, w') → exec m w = w'.
Proof. unfold exec. by intros ->. Qed.

Lemma drop_user_Some u o s' :
  drop_user u o = Some s' → ∃ s, o = Some s ∧ s' ⊆ s ∧ u ∉ s'.
Proof.
  clear store_write commit_hash_of.
  destruct o as [s|]; [|done]. cbn.
  destruct (decide (u ∈ s)) as [Hin|Hin].
  - destruct (decide (s ∖ {[u]} ≠ ∅)); [|done].
    intros [= <-]. exists s. set_solver.
  - intros [= <-]. by exists s.
Qed.

Lemma presence_unique_shrink (d d' : pydict (gset Z)) :
  (∀ k s', dict_get k d' = Some s' → ∃ s, dict_get k d = Some s ∧ s' ⊆ s) →
  presence_unique d → presence_unique d'.
Proof.
  clear store_write commit_hash_of.
  intros Hsub Hu u k1 k2 s1 s2 H1 H2 Hin1 Hin2.
  destruct (Hsub _ _ H1) as (t1 & Ht1 & Hs1).
  destruct (Hsub _ _ H2) as (t2 & Ht2 & Hs2).
  apply (Hu u k1 k2 t1 t2); set_solver.
Qed.

Lemma presence_unique_drop u (d d' : pydict (gset Z)) :
  (∀ k, dict_get k d' = drop_user u (dict_get k d)) →
  presence_unique d → presence_unique d'.
Proof.
  intros Hget. apply presence_unique_shrink. intros k s' Hs'.
  rewrite Hget in Hs'. apply drop_user_Some in Hs' as (s & ? & ? & _). eauto.
Qed.

(** After [u] has been dropped everywhere and put into the set of [op],
    no user is in two sets. *)
Lemma presence_unique_select u op (d d' : pydict (gset Z)) :
  (∀ k, dict_get k d' =
        if decide (k = op)
        then Some ({[u]} ∪ default ∅ (drop_user u (dict_get op d)))
        else drop_user u (dict_get k d)) →
  presence_unique d → presence_unique d'.
Proof.
  clear store_write commit_hash_of.
  intros Hget Hu x k1 k2 s1 s2 H1 H2 Hin1 Hin2.
  rewrite Hget in H1, H2.
  assert (Hmem : ∀ k s, (if decide (k = op)
                         then Some ({[u]} ∪ default ∅ (drop_user u (dict_get op d)))
                         else drop_user u (dict_get k d)) = Some s →
                        x ∈ s → (x = u ∧ k = op) ∨
                                (x ≠ u ∧ ∃ t, dict_get k d = Some t ∧ x ∈ t)).
  { intros k s Hk Hx. destruct (decide (k = op)) as [->|Hne].
    - injection Hk as <-. apply elem_of_union in Hx as [Hx|Hx].
      + left. set_solver.
      + right. destruct (drop_user u (dict_get op d)) as [t'|] eqn:Hd;
          [|by apply not_elem_of_empty in Hx].
        apply drop_user_Some in Hd as (t & Ht & Hsub & Hnot).
        split; [by intros ->|]. exists t. split; [done|]. by apply Hsub.
    - apply drop_user_Some in Hk as (t & Ht & Hsub & Hnot).
      right. split; [by intros ->|]. exists t. split; [done|]. by apply Hsub. }
  destruct (Hmem _ _ H1 Hin1) as [[-> ->]|[Hx1 (t1 & Ht1 & Hxt1)]];
    destruct (Hmem _ _ H2 Hin2) as [[? ->]|[Hx2 (t2 & Ht2 & Hxt2)]];
    try done.
  by apply (Hu x k1 k2 t1 t2).
Qed.

Lemma presence_inv_initial d f : presence_inv (initial d f).
Proof.
  split; [apply NoDup_nil_2|]. by intros u k1 k2 s1 s2 ?.
Qed.

Lemma presence_inv_step w i :
  presence_inv w → presence_inv (step jwt_decode store_write commit_hash_of w i).
Proof.
  intros [Hwf Hu]. destruct i as [sid ev|d]; [|done].
  destruct ev as [| | | | | | | | |token op_id] eqn:Hev;
    try (cbn [step]; unfold presence_inv;
         by rewrite on_event_active by done).
  - done.
  - cbn [step].
    destruct (handle_disconnect_spec sid w) as (w1 & Hrun & _ & Hwf1 & Hget).
    rewrite (exec_run _ _ _ _ Hrun). cbn. split; [by apply Hwf1|].
    specialize (Hget Hwf). destruct (truthy _).
    + by eapply presence_unique_drop.
    + eapply presence_unique_shrink; [|exact Hu]. intros k s'. rewrite Hget. eauto.
  - cbn [step on_event].
    destruct (verify_auth_token jwt_decode token w) as [r w0] eqn:Hv.
    destruct (verify_auth_token_inv _ _ _ _ Hv) as [-> [[user|] ->]].
    + destruct (handle_operation_selected_spec token op_id w user Hv)
        as (w' & Hrun & _ & Hwf' & Hget & _).
      rewrite (exec_run _ _ _ _ Hrun). split; [by apply Hwf'|].
      by eapply presence_unique_select; [apply Hget|].
    + by rewrite (exec_run _ _ _ _ (handle_operation_selected_anonymous _ _ _ Hv)).
Qed.

Lemma presence_inv_run inputs : ∀ w,
  presence_inv w → presence_inv (run jwt_decode store_write commit_hash_of w inputs).
Proof.
  unfold run. induction inputs as [|i inputs IH]; intros w Hw; [done|].
  cbn. apply IH. by apply presence_inv_step.
Qed.
End handlers.

Lemma socketio_emit_if (P : Prop) `{!Decision P} a b d w :
  (if decide P then socketio_emit a d else socketio_emit b d) w
  = socketio_emit (if decide P then a else b) d w.
Proof. by destruct (decide P). Qed.

(** ** Cascading deletes *)

Lemma cascade_self depth tbl m_id : m_id ∈ cascade depth tbl m_id.
Proof. destruct depth; left. Qed.

Lemma cascade_reply depth tbl m_id r :
  r ∈ tbl → Message.reply_id r = Some m_id →
  Message.id r ∈ cascade (S depth) tbl m_id.
Proof.
  intros Hr Hreply. cbn. right. apply list_elem_of_In, in_flat_map.
  exists r. split.
  - apply list_elem_of_In, list_elem_of_filter. by split.
  - apply list_elem_of_In, cascade_self.
Qed.

Lemma cascade_no_replies depth tbl m_id :
  replies tbl m_id = [] → cascade depth tbl m_id = [m_id].
Proof. intros Hnone. destruct depth; [done|]. cbn. by rewrite Hnone. Qed.

Lemma delete_message_run message_id w :
  message_id ∈ Message.id <$> messages (db w) →
  messages (db (exec (delete_message message_id) w))
  = filter (λ m, Message.id m ∉ cascade_delete (messages (db w)) message_id)
           (messages (db w)).
Proof. intros Hin. unfold exec, delete_message. by rewrite decide_True. Qed.

(** * The claims *)

(** C2. Whatever events the server handles from its start, no user id is in
    the presence set of two operations. When a verified user selects an
    operation, [update_active_users] first leaves the user in no set at all,
    and after the handler the user is in the set of the selected operation
    and in no other. *)
Theorem presence_unique_always jwt_decode store_write commit_hash_of d f inputs :
  let w := run jwt_decode store_write commit_hash_of (initial d f) inputs in
  presence_unique (active w) ∧
  ∀ sid token op_id user,
    verify_auth_token jwt_decode token w = (Ok (Some user), w) →
    let w' := step jwt_decode store_write commit_hash_of w
                (Inbound sid (operation_selected token op_id)) in
    (∀ k s, dict_get k (active (exec (update_active_users (User.id user)) w)) = Some s →
            User.id user ∉ s) ∧
    (∃ s, dict_get op_id (active w') = Some s ∧ User.id user ∈ s) ∧
    (∀ k s, dict_get k (active w') = Some s → User.id user ∈ s → k = op_id) ∧
    presence_unique (active w').
Proof.
  intros w.
  assert (Hinv : presence_inv w) by apply presence_inv_run, presence_inv_initial.
  split; [apply Hinv|]. intros sid token op_id user Hv w'.
  destruct Hinv as [Hwf Hu].
  destruct (update_active_users_spec (User.id user) w) as (w1 & Hrun1 & _ & _ & Hget1).
  destruct (handle_operation_selected_spec jwt_decode token op_id w user Hv)
    as (w2 & Hrun2 & _ & _ & Hget2 & _).
  subst w'. cbn [step on_event].
  rewrite (exec_run _ _ _ _ Hrun1), (exec_run _ _ _ _ Hrun2).
  specialize (Hget1 Hwf). specialize (Hget2 Hwf).
  split; [|split; [|split]].
  - intros k s Hk. rewrite Hget1 in Hk. by apply drop_user_Some in Hk as (? & _ & _ & ?).
  - eexists. rewrite Hget2, decide_True by done. split; [done|]. set_solver.
  - intros k s Hk Hin. rewrite Hget2 in Hk.
    destruct (decide (k = op_id)) as [|Hne]; [done|].
    by apply drop_user_Some in Hk as (? & _ & _ & ?).
  - by eapply presence_unique_select.
Qed.

Lemma presence_unique_always_witness :
  presence_unique (active Demo.w1) ∧
  (∃ s, dict_get 7 (active (Demo.serve Demo.w1
                              [Inbound Demo.sidA (operation_selected "tokA" 7)]))
        = Some s ∧ 1 ∈ s).
Proof.
  destruct (presence_unique_always Demo.decode Demo.write_ok Demo.hash Demo.db0 ∅
              (Demo.boot ++ Demo.selects)) as [Hu Hsel].
  split; [exact Hu|].
  destruct (Hsel Demo.sidA "tokA"%string 7 Demo.alice) as (_ & Hin & _).
  - vm_compute. reflexivity.
  - exact Hin.
Defined.

(** Re-selecting on a state that satisfies the presence invariant. *)
Lemma reselect_under_invariant jwt_decode token op_id w user s :
  presence_inv w →
  verify_auth_token jwt_decode token w = (Ok (Some user), w) →
  dict_get op_id (active w) = Some s → User.id user ∈ s →
  let w' := exec (handle_operation_selected jwt_decode token op_id) w in
  handle_operation_selected jwt_decode token op_id w = (Ok tt, w') ∧
  dict_eq (active w') (active w) ∧
  sockets (sm w') = sockets (sm w) ∧
  Forall (is_event "active-user-update")
         (effects_of (handle_operation_selected jwt_decode token op_id) w).
Proof.
  intros [Hwf Hu] Hv Hs Hin w'.
  destruct (handle_operation_selected_spec jwt_decode token op_id w user Hv)
    as (w2 & Hrun & Hstep & _ & Hget & _).
  subst w'. unfold effects_of. rewrite (exec_run _ _ _ _ Hrun).
  destruct Hstep as (Hso & _ & _ & _ & es & Ht & Hes).
  split; [done|]. split; [|split; [done|]].
  - intros k. rewrite (Hget Hwf). destruct (decide (k = op_id)) as [->|Hne].
    + rewrite Hs. cbn. rewrite decide_True by done.
      destruct (decide (s ∖ {[User.id user]} ≠ ∅)) as [Hne|He]; cbn; f_equal.
      * apply set_eq. intros x. rewrite elem_of_union, elem_of_difference,
          elem_of_singleton. destruct (decide (x = User.id user)); naive_solver.
      * apply dec_stable in He. apply set_eq. intros x.
        rewrite elem_of_union, elem_of_singleton.
        split; [intros [->|[]%not_elem_of_empty]; done|].
        intros Hx. left. destruct (decide (x = User.id user)); [done|].
        assert (x ∈ s ∖ {[User.id user]}) as Hx' by set_solver.
        rewrite He in Hx'. by apply not_elem_of_empty in Hx'.
    + destruct (dict_get k (active w)) as [t|] eqn:Hk; [|done]. cbn.
      destruct (decide (User.id user ∈ t)) as [Hint|]; [|done].
      destruct Hne. by apply (Hu (User.id user) k op_id t s).
  - rewrite Ht, drop_app_length. eapply Forall_impl; [exact Hes|]. by intros ef [_ ?].
Qed.

(** C10. In any state the server reaches from its start, a verified user who
    is already in the presence set of [op_id] selects [op_id] again: the
    handler returns, and the presence dict afterwards is equal (as dicts, key
    by key) to the one before; the registry is untouched, and what is emitted
    meanwhile are [active-user-update] events only. *)
Theorem reselect_same_operation jwt_decode store_write commit_hash_of d f inputs
    token op_id user s :
  let w := run jwt_decode store_write commit_hash_of (initial d f) inputs in
  verify_auth_token jwt_decode token w = (Ok (Some user), w) →
  dict_get op_id (active w) = Some s → User.id user ∈ s →
  let w' := exec (handle_operation_selected jwt_decode token op_id) w in
  handle_operation_selected jwt_decode token op_id w = (Ok tt, w') ∧
  dict_eq (active w') (active w) ∧
  sockets (sm w') = sockets (sm w) ∧
  Forall (is_event "active-user-update")
         (effects_of (handle_operation_selected jwt_decode token op_id) w).
Proof.
  intros w. apply reselect_under_invariant.
  apply presence_inv_run, presence_inv_initial.
Qed.

Lemma reselect_same_operation_witness :
  dict_eq (active (exec (handle_operation_selected Demo.decode "tokA" 42) Demo.w1))
          (active Demo.w1).
Proof.
  refine (proj1 (proj2 (reselect_same_operation Demo.decode Demo.write_ok Demo.hash
                          Demo.db0 ∅ (Demo.boot ++ Demo.selects) "tokA" 42
                          Demo.alice {[1; 2]} _ _ _))).
  - vm_compute. reflexivity.
  - vm_compute. reflexivity.
  - vm_compute. reflexivity.
Defined.

(** C8. [handle_disconnect] always returns, and leaves no registry entry for
    the connection; running it a second time for the same connection changes
    nothing at all (presence, registry, database and trace are the same, so
    nothing is emitted). The first run also takes the registered user, when
    its id is not 0, out of every presence set. *)
Theorem handle_disconnect_idempotent sid w :
  let w1 := exec (handle_disconnect sid) w in
  handle_disconnect sid w = (Ok tt, w1) ∧
  handle_disconnect sid w1 = (Ok tt, w1) ∧
  effects_of (handle_disconnect sid) w1 = [] ∧
  Forall (λ d, s_id d ≠ sid) (sockets (sm w1)) ∧
  ∀ u, get_user_id (sockets (sm w)) sid = Some u → u ≠ 0 → dict_wf (active w) →
       ∀ k s, dict_get k (active w1) = Some s → u ∉ s.
Proof.
  intros w1. destruct (handle_disconnect_spec sid w) as (w' & Hrun & _ & _ & Hget).
  subst w1. rewrite (exec_run _ _ _ _ Hrun).
  assert (Hgone : Forall (λ d, s_id d ≠ sid)
                    (sockets (sm (with_sockets (filter (λ d, s_id d ≠ sid)) w'))))
    by apply filter_other_sid.
  assert (Hagain : handle_disconnect sid (with_sockets (filter (λ d, s_id d ≠ sid)) w')
                   = (Ok tt, with_sockets (filter (λ d, s_id d ≠ sid)) w')).
  { unfold handle_disconnect at 1. munfold. unfold get_user_id.
    rewrite get_user_id_absent by done. cbn [truthy].
    f_equal. apply with_sockets_id. by apply filter_all. }
  split; [done|]. split; [done|]. split; [|split; [done|]].
  - unfold effects_of. rewrite (exec_run _ _ _ _ Hagain). apply drop_all.
  - intros u Hu Hne Hwf k s Hk. cbn in Hk. rewrite (Hget Hwf), Hu in Hk. cbn in Hk.
    rewrite bool_decide_eq_true_2 in Hk by done. cbn in Hk.
    by apply drop_user_Some in Hk as (? & _ & _ & ?).
Qed.

Lemma handle_disconnect_idempotent_witness :
  handle_disconnect Demo.sidA (exec (handle_disconnect Demo.sidA) Demo.w1)
    = (Ok tt, exec (handle_disconnect Demo.sidA) Demo.w1) ∧
  ∀ k s, dict_get k (active (exec (handle_disconnect Demo.sidA) Demo.w1)) = Some s →
         1 ∉ s.
Proof.
  destruct (handle_disconnect_idempotent Demo.sidA Demo.w1)
    as (_ & Hagain & _ & _ & Hleft).
  split; [exact Hagain|]. apply Hleft.
  - vm_compute. reflexivity.
  - intros H. discriminate H.
  - apply presence_inv_run, presence_inv_initial.
Defined.

(** C1, as the code has it. Every effect of [operation-selected] and of
    [disconnect] is an [active-user-update] emitted without a room, which the
    server hands to every connected client, whether or not it joined the room
    of the operation; [operation-selected] joins no room; and
    [emit_revoke_permission] is one [revoke-permission] emission handed to
    every connected client. A verified [operation-selected] ends with the
    update that carries the size of the selected operation's set. *)
Theorem emissions_reach_every_client jwt_decode sid token op_id u w :
  Forall (λ ef, broadcast w ef ∧ is_event "active-user-update" ef)
         (effects_of (handle_operation_selected jwt_decode token op_id) w) ∧
  sio_rooms (exec (handle_operation_selected jwt_decode token op_id) w) = sio_rooms w ∧
  Forall (λ ef, broadcast w ef ∧ is_event "active-user-update" ef)
         (effects_of (handle_disconnect sid) w) ∧
  effects_of (emit_revoke_permission u op_id) w
    = [Emit {| em_event := "revoke-permission";
               em_data := Dumps (PyDict [("op_id", PyInt op_id); ("u_id", PyInt u)]%string);
               em_to := None;
               em_recipients := dom (sio_rooms w) |}] ∧
  ∀ user, verify_auth_token jwt_decode token w = (Ok (Some user), w) →
    ∃ es user_ids,
      dict_get op_id (active (exec (handle_operation_selected jwt_decode token op_id) w))
        = Some user_ids ∧
      effects_of (handle_operation_selected jwt_decode token op_id) w
        = es ++ [Emit {| em_event := "active-user-update";
                         em_data := active_user_update op_id (Z.of_nat (size user_ids));
                         em_to := None;
                         em_recipients := dom (sio_rooms w) |}].
Proof.
  destruct (handle_operation_selected_step jwt_decode token op_id w)
    as (w1 & Hrun1 & (_ & _ & _ & Hr1 & es1 & Ht1 & Hes1) & _).
  destruct (handle_disconnect_spec sid w)
    as (w2 & Hrun2 & (_ & _ & _ & _ & es2 & Ht2 & Hes2) & _).
  unfold effects_of.
  rewrite (exec_run _ _ _ _ Hrun1), (exec_run _ _ _ _ Hrun2).
  split; [by rewrite Ht1, drop_app_length|]. split; [done|].
  split; [cbn; by rewrite Ht2, drop_app_length|]. split.
  - unfold emit_revoke_permission, exec. munfold. cbn.
    by rewrite drop_app_length.
  - intros user Hv.
    destruct (handle_operation_selected_spec jwt_decode token op_id w user Hv)
      as (w3 & Hrun3 & _ & _ & _ & es & ids & Hids & Ht).
    rewrite Hrun1 in Hrun3. injection Hrun3 as <-.
    exists es, ids. split; [done|]. by rewrite Ht, drop_app_length.
Qed.

Lemma emissions_reach_every_client_witness :
  ∃ es (user_ids : gset Z),
    effects_of (handle_operation_selected Demo.decode "tokA" 42) Demo.w0
      = es ++ [Emit {| em_event := "active-user-update";
                       em_data := active_user_update 42 (Z.of_nat (size user_ids));
                       em_to := None;
                       em_recipients := dom (sio_rooms Demo.w0) |}].
Proof.
  destruct (emissions_reach_every_client Demo.decode Demo.sidA "tokA" 42 2 Demo.w0)
    as (_ & _ & _ & _ & Hlast).
  destruct (Hlast Demo.alice) as (es & ids & _ & Heq).
  - vm_compute. reflexivity.
  - exists es, ids. exact Heq.
Defined.

(** C1 as stated fails: carol's connection never joined the room of operation
    42, yet it is handed the [active-user-update] of alice selecting 42; and
    the [revoke-permission] for bob is handed to alice's connection too. *)
Lemma scoped_delivery_counterexample :
  (str 42 ∉ rooms_of Demo.w0 Demo.sidC) ∧
  (∃ e, Emit e ∈ effects_of (handle_operation_selected Demo.decode "tokA" 42) Demo.w0 ∧
        em_event e = "active-user-update"%string ∧
        Demo.sidC ∈ em_recipients e) ∧
  get_user_id (sockets (sm Demo.w0)) Demo.sidA = Some 1 ∧
  (∃ e, Emit e ∈ effects_of (emit_revoke_permission 2 42) Demo.w0 ∧
        em_event e = "revoke-permission"%string ∧
        Demo.sidA ∈ em_recipients e).
Proof.
  split; [by vm_compute|]. split; [|split; [reflexivity|]].
  - eexists. split; [vm_compute; left|]. split; [reflexivity|]. by vm_compute.
  - eexists. split; [vm_compute; left|]. split; [reflexivity|]. by vm_compute.
Qed.

(** C3. A [chat-message] from a verified user whose permission on the
    operation is missing or is [viewer]: the handler returns and the whole
    server state is what it was, so no message row is written and nothing,
    not even an error, is emitted. *)
Theorem handle_message_denied jwt_decode token op_id message_text reply_id w user :
  verify_auth_token jwt_decode token w = (Ok (Some user), w) →
  (permission_first (db w) (User.id user) op_id = None ∨
   ∃ p, permission_first (db w) (User.id user) op_id = Some p ∧
        Permission.access_level p = viewer) →
  handle_message jwt_decode token op_id message_text reply_id w = (Ok tt, w) ∧
  effects_of (handle_message jwt_decode token op_id message_text reply_id) w = [].
Proof.
  intros Hv Hp.
  assert (Hrun : handle_message jwt_decode token op_id message_text reply_id w
                 = (Ok tt, w)).
  { unfold handle_message. unfold mbind at 1, M_bind at 1. rewrite Hv.
    unfold mbind at 1, M_bind at 1. rewrite permission_check_emit_run.
    destruct Hp as [->|(p & -> & Hp)]; [done|].
    by rewrite bool_decide_eq_false_2 by (by intros ?). }
  split; [done|]. unfold effects_of. rewrite (exec_run _ _ _ _ Hrun). apply drop_all.
Qed.

Lemma handle_message_denied_witness :
  handle_message Demo.decode "tokB" 42 "hi" (-1) Demo.w1 = (Ok tt, Demo.w1) ∧
  handle_message Demo.decode "tokC" 42 "hi" (-1) Demo.w1 = (Ok tt, Demo.w1).
Proof.
  split.
  - refine (proj1 (handle_message_denied Demo.decode "tokB" 42 "hi" (-1) Demo.w1
                     Demo.bob _ _)).
    + vm_compute. reflexivity.
    + right. exists (Permission.mk 2 42 2 viewer). split; reflexivity.
  - refine (proj1 (handle_message_denied Demo.decode "tokC" 42 "hi" (-1) Demo.w1
                     Demo.carol _ _)).
    + vm_compute. reflexivity.
    + left. reflexivity.
Defined.

(** C7. A [chat-message] from a verified user with a permission other than
    [viewer]: one message row is written, and exactly one event is emitted
    after it, [chat-message-client] when [reply_id] is -1 and
    [chat-message-reply-client] otherwise, carrying the new message. *)
Theorem handle_message_accepted jwt_decode token op_id message_text reply_id w user p :
  verify_auth_token jwt_decode token w = (Ok (Some user), w) →
  permission_first (db w) (User.id user) op_id = Some p →
  Permission.access_level p ≠ viewer →
  let w' := exec (handle_message jwt_decode token op_id message_text reply_id) w in
  ∃ new_message,
    handle_message jwt_decode token op_id message_text reply_id w = (Ok tt, w') ∧
    messages (db w') = messages (db w) ++ [new_message] ∧
    Message.text new_message = message_text ∧
    Message.u_id new_message = User.id user ∧
    Message.op_id new_message = op_id ∧
    effects_of (handle_message jwt_decode token op_id message_text reply_id) w
    = [Commit (RowMessage new_message);
       Emit {| em_event := if decide (reply_id = -1) then "chat-message-client"
                           else "chat-message-reply-client";
               em_data := Dumps (message_dict (User.username user) new_message);
               em_to := None;
               em_recipients := dom (sio_rooms w) |}].
Proof.
  intros Hv Hp Hlevel w'. subst w'.
  pose proof (verify_auth_token_user _ _ _ _ Hv) as Huser.
  eassert (Hrun : handle_message jwt_decode token op_id message_text reply_id w
                  = (Ok tt, _)).
  { unfold handle_message. unfold mbind at 1, M_bind at 1. rewrite Hv.
    unfold mbind at 1, M_bind at 1. rewrite permission_check_emit_run, Hp.
    rewrite bool_decide_eq_true_2 by done.
    unfold add_message, get_message_dict, mbind, M_bind.
    unfold user_first in *. cbn. rewrite Huser.
    rewrite socketio_emit_if. reflexivity. }
  unfold effects_of. rewrite (exec_run _ _ _ _ Hrun).
  eexists. split; [exact Hrun|]. cbn.
  repeat (split; [reflexivity|]).
  by rewrite <- app_assoc, drop_app_length.
Qed.

Lemma handle_message_accepted_witness :
  ∃ new_message,
    effects_of (handle_message Demo.decode "tokA" 42 "hi" (-1)) Demo.w1
    = [Commit (RowMessage new_message);
       Emit {| em_event := "chat-message-client";
               em_data := Dumps (message_dict "alice" new_message);
               em_to := None;
               em_recipients := dom (sio_rooms Demo.w1) |}].
Proof.
  destruct (handle_message_accepted Demo.decode "tokA" 42 "hi" (-1) Demo.w1 Demo.alice
              (Permission.mk 1 42 1 creator)) as (m & _ & _ & _ & _ & _ & Heff).
  - vm_compute. reflexivity.
  - reflexivity.
  - discriminate.
  - exists m. exact Heff.
Defined.

(** C9, as the code has it. Deleting a stored message [m] deletes [m] and
    every message whose [reply_id] is the id of [m], whether [m] is top-level
    or not, and deletes nothing of another id when no message replies to
    [m]; nothing is ever added. *)
Theorem delete_message_cascade w m :
  m ∈ messages (db w) →
  let tbl := messages (db w) in
  let tbl' := messages (db (exec (delete_message (Message.id m)) w)) in
  (m ∉ tbl') ∧
  (∀ r, r ∈ tbl → Message.reply_id r = Some (Message.id m) → r ∉ tbl') ∧
  (replies tbl (Message.id m) = [] →
   tbl' = filter (λ x, Message.id x ≠ Message.id m) tbl) ∧
  tbl' ⊆ tbl.
Proof.
  intros Hm tbl tbl'. subst tbl tbl'.
  assert (Hid : Message.id m ∈ Message.id <$> messages (db w)).
  { apply list_elem_of_fmap. by exists m. }
  rewrite (delete_message_run _ _ Hid). unfold cascade_delete.
  destruct (messages (db w)) as [|m0 tbl] eqn:Htbl; [by apply elem_of_nil in Hm|].
  rewrite <- Htbl in *. replace (length (messages (db w))) with (S (length tbl))
    by (by rewrite Htbl).
  split; [|split; [|split]].
  - intros [Hnot _]%list_elem_of_filter. apply Hnot, cascade_self.
  - intros r Hr Hreply [Hnot _]%list_elem_of_filter.
    by apply Hnot, cascade_reply.
  - intros Hnone. rewrite cascade_no_replies by done.
    apply list_filter_iff. intros x. by rewrite list_elem_of_singleton.
  - intros x [_ Hx]%list_elem_of_filter. done.
Qed.

Lemma delete_message_cascade_witness :
  (Demo.m3 ∉ messages (db (exec (delete_message 3) Demo.w2))) ∧
  messages (db (exec (delete_message 3) Demo.w2))
  = filter (λ x, Message.id x ≠ 3) (messages (db Demo.w2)).
Proof.
  destruct (delete_message_cascade Demo.w2 Demo.m3) as (Hgone & _ & Honly & _).
  - vm_compute. right. right. left.
  - split; [exact Hgone|]. apply Honly. reflexivity.
Defined.

(** C9 as stated fails for a reply that has replies of its own: [m2] replies
    to [m1] and [m3] replies to [m2]; deleting the reply [m2] deletes [m3]
    as well. *)
Lemma delete_reply_counterexample :
  messages (db Demo.w2) = [Demo.m1; Demo.m2; Demo.m3] ∧
  Message.reply_id Demo.m2 = Some (Message.id Demo.m1) ∧
  Demo.m3 ≠ Demo.m2 ∧
  messages (db (exec (delete_message (Message.id Demo.m2)) Demo.w2)) = [Demo.m1].
Proof. repeat split; (reflexivity || discriminate). Qed.

(** C6, at an input where it fails: carol has no permission on operation 42;
    [permission_check_admin] raises there, where [permission_check_emit]
    answers [False]. With a record, it answers whether the level is
    [creator] or [admin]. *)
Theorem permission_check_admin_raises :
  permission_first (db Demo.w0) 3 42 = None ∧
  permission_check_admin 3 42 Demo.w0 = (Raise AttributeError, Demo.w0) ∧
  permission_check_emit 3 42 Demo.w0 = (Ok false, Demo.w0) ∧
  permission_check_admin 1 42 Demo.w0 = (Ok true, Demo.w0) ∧
  permission_check_admin 2 42 Demo.w0 = (Ok false, Demo.w0).
Proof. repeat split; reflexivity. Qed.

(** C5. A [start] event whose token verifies returns, appends the pair of the
    connection and the user to the registry, and puts the connection into the
    room of every operation the user has a permission record on, whatever its
    level, and into no other new room; other connections, presence and the
    database are untouched and nothing is emitted. When the token does not
    verify, the state is unchanged and nothing is emitted. *)
Theorem handle_start_event_joins jwt_decode sid token w :
  let w' := exec (handle_start_event jwt_decode sid token) w in
  (∀ user, verify_auth_token jwt_decode token w = (Ok (Some user), w) →
     handle_start_event jwt_decode sid token w = (Ok tt, w') ∧
     sockets (sm w') = sockets (sm w) ++ [{| s_id := sid; u_id := User.id user |}] ∧
     (∀ p, p ∈ permissions (db w) → Permission.u_id p = User.id user →
           str (Permission.op_id p) ∈ rooms_of w' sid) ∧
     rooms_of w' sid
       = rooms_of w sid ∪
         list_to_set (str ∘ Permission.op_id <$> permissions_of_user (db w) (User.id user)) ∧
     (∀ sid', sid' ≠ sid → sio_rooms w' !! sid' = sio_rooms w !! sid') ∧
     active w' = active w ∧ db w' = db w ∧
     effects_of (handle_start_event jwt_decode sid token) w = []) ∧
  (verify_auth_token jwt_decode token w = (Ok None, w) →
     handle_start_event jwt_decode sid token w = (Ok tt, w) ∧
     effects_of (handle_start_event jwt_decode sid token) w = []).
Proof.
  intros w'. subst w'. split.
  - intros user Hv.
    eassert (Hrun : handle_start_event jwt_decode sid token w = (Ok tt, _)).
    { unfold handle_start_event. unfold mbind at 1, M_bind at 1. rewrite Hv.
      unfold mbind, M_bind, gets. rewrite join_rooms_run. reflexivity. }
    unfold effects_of. rewrite (exec_run _ _ _ _ Hrun).
    split; [exact Hrun|]. split; [reflexivity|].
    assert (Hrooms : rooms_of
                       (with_sockets (λ sockets, sockets ++ [{| s_id := sid; u_id := User.id user |}])
                          (with_rooms (joined sid (permissions_of_user (db w) (User.id user))) w))
                       sid
                     = rooms_of w sid ∪
                       list_to_set (str ∘ Permission.op_id
                                      <$> permissions_of_user (db w) (User.id user))).
    { unfold rooms_of. cbn. apply joined_self. }
    split; [|split; [exact Hrooms|]].
    + intros p Hp Hu. rewrite Hrooms. apply elem_of_union_r, elem_of_list_to_set.
      apply list_elem_of_fmap. exists p. split; [done|].
      apply list_elem_of_filter. by split.
    + split; [intros sid' Hne; cbn; by apply joined_other|].
      split; [reflexivity|]. split; [reflexivity|]. cbn. apply drop_all.
  - intros Hv.
    assert (Hrun : handle_start_event jwt_decode sid token w = (Ok tt, w)).
    { unfold handle_start_event. unfold mbind at 1, M_bind at 1. by rewrite Hv. }
    split; [done|]. unfold effects_of. rewrite (exec_run _ _ _ _ Hrun). apply drop_all.
Qed.

Lemma handle_start_event_joins_witness :
  rooms_of (exec (handle_start_event Demo.decode Demo.sidA "tokA")
              (Demo.serve (initial Demo.db0 ∅) [Inbound Demo.sidA connect]))
           Demo.sidA
  = {[ Demo.sidA ]} ∪ {[ "42"; "7" ]} ∧
  handle_start_event Demo.decode Demo.sidA "expired"
    (Demo.serve (initial Demo.db0 ∅) [Inbound Demo.sidA connect])
  = (Ok tt, Demo.serve (initial Demo.db0 ∅) [Inbound Demo.sidA connect]).
Proof.
  split.
  - destruct (handle_start_event_joins Demo.decode Demo.sidA "tokA"
                (Demo.serve (initial Demo.db0 ∅) [Inbound Demo.sidA connect]))
      as [Hok _].
    destruct (Hok Demo.alice) as (_ & _ & _ & Hrooms & _).
    + vm_compute. reflexivity.
    + rewrite Hrooms. vm_compute. reflexivity.
  - destruct (handle_start_event_joins Demo.decode Demo.sidA "expired"
                (Demo.serve (initial Demo.db0 ∅) [Inbound Demo.sidA connect]))
      as [_ Hfail].
    apply Hfail. vm_compute. reflexivity.
Defined.

(** C4. A [file-save] from a verified user. With a permission other than
    [viewer] and a write that goes through, the handler returns having
    written one Change row and one system message row, and its effects are, in
    this order: the Change commit, the message commit, one
    [chat-message-client] carrying the system message, one [file-changed].
    When the write does not go through, or the permission is missing or is
    [viewer], the state is unchanged and nothing is emitted. *)
Theorem handle_file_save_atomic jwt_decode store_write commit_hash_of
    token op_id content comment version_name messageText w user :
  verify_auth_token jwt_decode token w = (Ok (Some user), w) →
  let save := handle_file_save jwt_decode store_write commit_hash_of
                token op_id content comment version_name messageText in
  let w' := exec save w in
  (∀ p, permission_first (db w) (User.id user) op_id = Some p →
        Permission.access_level p ≠ viewer →
        store_write op_id content = true →
     ∃ change new_message,
       save w = (Ok tt, w') ∧
       changes (db w') = changes (db w) ++ [change] ∧
       Change.op_id change = op_id ∧ Change.u_id change = User.id user ∧
       files w' !! op_id = Some content ∧
       messages (db w') = messages (db w) ++ [new_message] ∧
       Message.message_type new_message = SYSTEM_MESSAGE ∧
       Message.op_id new_message = op_id ∧
       Message.text new_message
         = ("[service message] **" +:+ User.username user +:+
            "** saved changes. " +:+ fmt messageText)%string ∧
       effects_of save w
       = [Commit (RowChange change);
          Commit (RowMessage new_message);
          Emit {| em_event := "chat-message-client";
                  em_data := Dumps (message_dict (User.username user) new_message);
                  em_to := None;
                  em_recipients := dom (sio_rooms w) |};
          Emit {| em_event := "file-changed";
                  em_data := Dumps (PyDict [("op_id", PyInt op_id);
                                            ("u_id", PyInt (User.id user))]%string);
                  em_to := None;
                  em_recipients := dom (sio_rooms w) |}]) ∧
  (store_write op_id content = false →
     save w = (Ok tt, w) ∧ effects_of save w = []) ∧
  (permission_first (db w) (User.id user) op_id = None ∨
   (∃ p, permission_first (db w) (User.id user) op_id = Some p ∧
         Permission.access_level p = viewer) →
     save w = (Ok tt, w) ∧ effects_of save w = []).
Proof.
  intros Hv save w'. subst save w'.
  pose proof (verify_auth_token_user _ _ _ _ Hv) as Huser.
  split; [|split].
  - intros p Hp Hlevel Hwrite.
    eassert (Hrun : handle_file_save jwt_decode store_write commit_hash_of
                      token op_id content comment version_name messageText w
                    = (Ok tt, _)).
    { unfold handle_file_save. unfold mbind at 1, M_bind at 1. rewrite Hv.
      unfold mbind at 1, M_bind at 1. rewrite permission_check_emit_run, Hp.
      rewrite bool_decide_eq_true_2 by done.
      unfold save_file, add_message, get_message_dict, mbind, M_bind.
      rewrite Hwrite. unfold user_first in *. cbn. rewrite Huser. reflexivity. }
    unfold effects_of. rewrite (exec_run _ _ _ _ Hrun).
    do 2 eexists. split; [exact Hrun|]. cbn.
    repeat (split; [reflexivity|]).
    split; [by rewrite lookup_insert_eq|].
    repeat (split; [reflexivity|]).
    by rewrite <- !app_assoc, drop_app_length.
  - intros Hwrite.
    assert (Hrun : handle_file_save jwt_decode store_write commit_hash_of
                     token op_id content comment version_name messageText w
                   = (Ok tt, w)).
    { unfold handle_file_save. unfold mbind at 1, M_bind at 1. rewrite Hv.
      unfold mbind at 1, M_bind at 1. rewrite permission_check_emit_run.
      unfold save_file, mbind, M_bind, mret, M_ret. rewrite Hwrite.
      by destruct (match permission_first (db w) (User.id user) op_id with
                   | Some p => bool_decide (Permission.access_level p ≠ viewer)
                   | None => false
                   end). }
    split; [done|]. unfold effects_of. rewrite (exec_run _ _ _ _ Hrun). apply drop_all.
  - intros Hp.
    assert (Hrun : handle_file_save jwt_decode store_write commit_hash_of
                     token op_id content comment version_name messageText w
                   = (Ok tt, w)).
    { unfold handle_file_save. unfold mbind at 1, M_bind at 1. rewrite Hv.
      unfold mbind at 1, M_bind at 1. rewrite permission_check_emit_run.
      destruct Hp as [->|(p & -> & Hp)]; [done|].
      by rewrite bool_decide_eq_false_2 by (by intros ?). }
    split; [done|]. unfold effects_of. rewrite (exec_run _ _ _ _ Hrun). apply drop_all.
Qed.

Lemma handle_file_save_atomic_witness :
  (∃ change new_message,
     effects_of (handle_file_save Demo.decode Demo.write_ok Demo.hash
                   "tokA" 42 "<xml/>" None None (Some "v2")) Demo.w1
     = [Commit (RowChange change);
        Commit (RowMessage new_message);
        Emit {| em_event := "chat-message-client";
                em_data := Dumps (message_dict "alice" new_message);
                em_to := None;
                em_recipients := dom (sio_rooms Demo.w1) |};
        Emit {| em_event := "file-changed";
                em_data := Dumps (PyDict [("op_id", PyInt 42); ("u_id", PyInt 1)]%string);
                em_to := None;
                em_recipients := dom (sio_rooms Demo.w1) |}]) ∧
  handle_file_save Demo.decode Demo.write_ok Demo.hash
    "tokA" 42 EmptyString None None (Some "v2") Demo.w1 = (Ok tt, Demo.w1) ∧
  handle_file_save Demo.decode Demo.write_ok Demo.hash
    "tokB" 42 "<xml/>" None None (Some "v2") Demo.w1 = (Ok tt, Demo.w1).
Proof.
  split; [|split].
  - destruct (handle_file_save_atomic Demo.decode Demo.write_ok Demo.hash
                "tokA" 42 "<xml/>" None None (Some "v2"%string) Demo.w1 Demo.alice)
      as (Hok & _ & _); [vm_compute; reflexivity|].
    destruct (Hok (Permission.mk 1 42 1 creator))
      as (change & new_message & _ & _ & _ & _ & _ & _ & _ & _ & _ & Heff);
      [reflexivity|discriminate|reflexivity|].
    exists change, new_message. exact Heff.
  - destruct (handle_file_save_atomic Demo.decode Demo.write_ok Demo.hash
                "tokA" 42 EmptyString None None (Some "v2"%string) Demo.w1 Demo.alice)
      as (_ & Hfail & _); [vm_compute; reflexivity|].
    apply Hfail. reflexivity.
  - destruct (handle_file_save_atomic Demo.decode Demo.write_ok Demo.hash
                "tokB" 42 "<xml/>" None None (Some "v2"%string) Demo.w1 Demo.bob)
      as (_ & _ & Hdenied); [vm_compute; reflexivity|].
    apply Hdenied. right. exists (Permission.mk 2 42 2 viewer). split; reflexivity.
Defined.

(** * Further properties of the socket layer *)

(** ** [update_active_users], exactly *)

Lemma uau_body_trace u k s w :
  ∃ w', uau_body u (k, s) w = (Ok tt, w') ∧
        sio_rooms w' = sio_rooms w ∧
        trace w' = trace w ++ (if decide (u ∈ s) then [uau_emission w u (k, s)] else []).
Proof.
  unfold uau_body, uau_emission. destruct (decide (u ∈ s)) as [Hin|Hin].
  - destruct (decide (s ∖ {[u]} ≠ ∅)) as [Hne|He].
    + munfold. cbn. eexists. split; [reflexivity|]. done.
    + munfold. cbn. rewrite dict_get_set_eq. cbn.
      eexists. split; [reflexivity|]. split; [done|]. cbn.
      apply dec_stable in He. rewrite He. by rewrite size_empty.
  - exists w. split; [done|]. split; [done|]. by rewrite app_nil_r.
Qed.

Lemma uau_loop_trace u l : ∀ w,
  ∃ w', for_each l (uau_body u) w = (Ok tt, w') ∧
        sio_rooms w' = sio_rooms w ∧
        trace w' = trace w ++ (uau_emission w u <$> filter (λ kv, u ∈ kv.2) l).
Proof.
  induction l as [|[k s] l IH]; intros w.
  - exists w. split; [done|]. split; [done|]. by rewrite app_nil_r.
  - destruct (uau_body_trace u k s w) as (w1 & Hrun1 & Hr1 & Ht1).
    destruct (IH w1) as (w2 & Hrun2 & Hr2 & Ht2).
    exists w2. split.
    { cbn [for_each]. unfold mbind at 1, M_bind at 1. by rewrite Hrun1. }
    split; [congruence|]. rewrite Ht2, Ht1, filter_cons. cbn [snd].
    unfold uau_emission at 2. rewrite Hr1. fold (uau_emission w u).
    destruct (decide (u ∈ s)).
    + by rewrite fmap_cons, <- app_assoc.
    + by rewrite app_nil_r.
Qed.

Lemma uau_loop_skip u l : ∀ w,
  Forall (λ kv, u ∉ kv.2) l → for_each l (uau_body u) w = (Ok tt, w).
Proof.
  induction l as [|[k s] l IH]; intros w Hall; [done|].
  apply Forall_cons in Hall as [Hs Hl]. cbn in Hs.
  cbn [for_each]. unfold mbind at 1, M_bind at 1.
  unfold uau_body at 1. rewrite decide_False by done.
  unfold mret at 1, M_ret at 1. by apply IH.
Qed.

(** X1. [update_active_users u] emits one [active-user-update] for each entry
    of the presence dict whose set holds [u], in the order of the dict, with
    the number of users left in that set (0 when the key is deleted), and
    nothing for the other entries. *)
Theorem update_active_users_emissions u w :
  effects_of (update_active_users u) w
  = uau_emission w u <$> filter (λ kv, u ∈ kv.2) (active w).
Proof.
  unfold effects_of.
  destruct (uau_loop_trace u (active w) w) as (w' & Hrun & _ & Ht).
  rewrite <- update_active_users_unfold in Hrun.
  by rewrite (exec_run _ _ _ _ Hrun), Ht, drop_app_length.
Qed.

(** X2. On a dict with unique keys, running [update_active_users u] a second
    time changes nothing and emits nothing. *)
Theorem update_active_users_idempotent u w :
  dict_wf (active w) →
  let w1 := exec (update_active_users u) w in
  update_active_users u w1 = (Ok tt, w1) ∧
  effects_of (update_active_users u) w1 = [].
Proof.
  intros Hwf w1. subst w1.
  destruct (update_active_users_spec u w) as (w' & Hrun & _ & Hwf' & Hget).
  rewrite (exec_run _ _ _ _ Hrun).
  assert (Hagain : update_active_users u w' = (Ok tt, w')).
  { rewrite update_active_users_unfold. apply uau_loop_skip.
    apply Forall_forall. intros [k s] Hks. cbn.
    apply (dict_get_elem_of _ _ _ (Hwf' Hwf)) in Hks.
    rewrite (Hget Hwf) in Hks. by apply drop_user_Some in Hks as (? & _ & _ & ?). }
  split; [done|]. unfold effects_of. rewrite (exec_run _ _ _ _ Hagain). apply drop_all.
Qed.

Lemma update_active_users_idempotent_witness :
  update_active_users 1 (exec (update_active_users 1) Demo.w1)
  = (Ok tt, exec (update_active_users 1) Demo.w1).
Proof.
  refine (proj1 (update_active_users_idempotent 1 Demo.w1 _)).
  apply presence_inv_run, presence_inv_initial.
Defined.

(** ** What a step does to presence *)

(** Every step leaves the presence dict as it is, or drops one user from
    every set, or moves one user into the set of one operation. *)
Lemma step_presence_shape jwt_decode store_write commit_hash_of w i :
  dict_wf (active w) →
  let w' := step jwt_decode store_write commit_hash_of w i in
  dict_wf (active w') ∧
  ((∀ k, dict_get k (active w') = dict_get k (active w)) ∨
   (∃ u, ∀ k, dict_get k (active w') = drop_user u (dict_get k (active w))) ∨
   (∃ u op_id, ∀ k, dict_get k (active w') =
      if decide (k = op_id)
      then Some ({[u]} ∪ default ∅ (drop_user u (dict_get op_id (active w))))
      else drop_user u (dict_get k (active w)))).
Proof.
  intros Hwf w'. subst w'. destruct i as [sid ev|d]; [|by split; [|left]].
  destruct ev as [| | | | | | | | |token op_id] eqn:Hev;
    try (cbn [step]; rewrite on_event_active by done; by split; [|left]).
  - by split; [|left].
  - cbn [step].
    destruct (handle_disconnect_spec sid w) as (w1 & Hrun & _ & Hwf1 & Hget).
    rewrite (exec_run _ _ _ _ Hrun). cbn. split; [by apply Hwf1|].
    specialize (Hget Hwf). destruct (truthy _); [right; left; eauto|by left].
  - cbn [step on_event].
    destruct (verify_auth_token jwt_decode token w) as [r w0] eqn:Hv.
    destruct (verify_auth_token_inv _ _ _ _ _ Hv) as [-> [[user|] ->]].
    + destruct (handle_operation_selected_spec _ token op_id w user Hv)
        as (w' & Hrun & _ & Hwf' & Hget & _).
      rewrite (exec_run _ _ _ _ Hrun). split; [by apply Hwf'|].
      right. right. exists (User.id user), op_id. by apply Hget.
    + rewrite (exec_run _ _ _ _ (handle_operation_selected_anonymous _ _ _ _ Hv)).
      by split; [|left].
Qed.

Lemma drop_user_nonempty u o s' :
  from_option (λ s, s ≠ ∅) True o → drop_user u o = Some s' → s' ≠ ∅.
Proof.
  destruct o as [s|]; [|done]. cbn. intros Hs.
  destruct (decide (u ∈ s)); [|by intros [= <-]].
  destruct (decide (s ∖ {[u]} ≠ ∅)); [by intros [= <-]|done].
Qed.

Lemma presence_nonempty_run jwt_decode store_write commit_hash_of inputs : ∀ w0,
  dict_wf (active w0) ∧ presence_nonempty (active w0) →
  let w := run jwt_decode store_write commit_hash_of w0 inputs in
  dict_wf (active w) ∧ presence_nonempty (active w).
Proof.
  unfold run. induction inputs as [|i inputs IH]; intros w0 [Hwf Hne]; [done|].
  cbn. apply IH.
  destruct (step_presence_shape jwt_decode store_write commit_hash_of w0 i Hwf)
    as [Hwf' Hshape].
  split; [done|]. intros k s Hk.
  destruct Hshape as [Hsame|[(u & Hdrop)|(u & op & Hsel)]].
  - rewrite Hsame in Hk. by eapply Hne.
  - rewrite Hdrop in Hk. eapply drop_user_nonempty; [|exact Hk].
    destruct (dict_get k (active w0)) as [t|] eqn:Ht; [|done]. by eapply Hne.
  - rewrite Hsel in Hk. destruct (decide (k = op)).
    + injection Hk as <-. set_solver.
    + eapply drop_user_nonempty; [|exact Hk].
      destruct (dict_get k (active w0)) as [t|] eqn:Ht; [|done]. by eapply Hne.
Qed.

Lemma presence_nonempty_initial d f :
  dict_wf (active (initial d f)) ∧ presence_nonempty (active (initial d f)).
Proof. split; [apply NoDup_nil_2|]. by intros k s ?. Qed.

(** X3. In every state the server reaches from its start, the keys of the
    presence dict are unique and no key holds an empty set: an operation is
    tracked exactly while somebody is active in it. *)
Theorem presence_never_empty jwt_decode store_write commit_hash_of d f inputs :
  let w := run jwt_decode store_write commit_hash_of (initial d f) inputs in
  dict_wf (active w) ∧ presence_nonempty (active w) ∧
  Forall (λ kv, kv.2 ≠ ∅) (active w).
Proof.
  intros w.
  destruct (presence_nonempty_run jwt_decode store_write commit_hash_of inputs
              (initial d f) (presence_nonempty_initial d f)) as [Hwf Hne].
  fold w in Hwf, Hne. split; [done|]. split; [done|].
  apply Forall_forall. intros [k s] Hks. cbn.
  apply (Hne k). by apply dict_get_elem_of.
Qed.

(** ** Leaving one operation *)

(** X4. [remove_active_user_id_from_specific_operation u op_id] never raises.
    Under [op_id] it leaves what dropping [u] leaves (the set without [u], or
    no key when the set becomes empty), every other key is as before, and so
    are the registry, the database and the rooms. It emits one
    [active-user-update] with the number of users left when [u] was in the
    set, and nothing when the operation is not tracked or [u] is not in it. *)
Theorem remove_from_specific_operation_spec u op_id w :
  let leave := remove_active_user_id_from_specific_operation u op_id in
  let w' := exec leave w in
  leave w = (Ok tt, w') ∧
  (∀ k, dict_get k (active w') =
        if decide (k = op_id) then drop_user u (dict_get op_id (active w))
        else dict_get k (active w)) ∧
  (dict_wf (active w) → dict_wf (active w')) ∧
  sockets (sm w') = sockets (sm w) ∧ db w' = db w ∧ sio_rooms w' = sio_rooms w ∧
  effects_of leave w
  = match dict_get op_id (active w) with
    | Some user_ids =>
        if decide (u ∈ user_ids) then [uau_emission w u (op_id, user_ids)] else []
    | None => []
    end.
Proof.
  intros leave w'. subst leave w'.
  unfold effects_of, exec, remove_active_user_id_from_specific_operation, uau_emission.
  munfold. cbn.
  destruct (dict_get op_id (active w)) as [s|] eqn:Hs; cbn.
  - destruct (decide (u ∈ s)) as [Hin|Hin]; cbn.
    + destruct (decide (s ∖ {[u]} ≠ ∅)) as [Hne|He]; cbn.
      * split; [done|]. split; [|split; [by apply dict_wf_set|]].
        -- intros k. rewrite dict_get_set. by destruct (decide (k = op_id)).
        -- repeat (split; [done|]). by rewrite drop_app_length.
      * rewrite dict_get_set_eq. cbn. split; [done|].
        split; [|split; [intros ?; by apply dict_wf_del, dict_wf_set|]].
        -- intros k. rewrite dict_get_del, dict_get_set.
           by destruct (decide (k = op_id)).
        -- repeat (split; [done|]). rewrite drop_app_length.
           apply dec_stable in He. by rewrite He, size_empty.
    + split; [done|]. split; [|split; [done|]].
      * intros k. destruct (decide (k = op_id)) as [->|]; [|done]. by rewrite Hs.
      * repeat (split; [done|]). apply drop_all.
  - split; [done|]. split; [|split; [done|]].
    + intros k. destruct (decide (k = op_id)) as [->|]; [|done]. by rewrite Hs.
    + repeat (split; [done|]). apply drop_all.
Qed.

Lemma remove_specific_lookup u op_id w k :
  dict_get k (active (exec (remove_active_user_id_from_specific_operation u op_id) w))
  = if decide (k = op_id) then drop_user u (dict_get op_id (active w))
    else dict_get k (active w).
Proof.
  unfold exec, remove_active_user_id_from_specific_operation. munfold. cbn.
  destruct (dict_get op_id (active w)) as [s|] eqn:Hs; cbn.
  - destruct (decide (u ∈ s)) as [Hin|Hin]; cbn.
    + destruct (decide (s ∖ {[u]} ≠ ∅)) as [Hne|He]; cbn.
      * rewrite dict_get_set. by destruct (decide (k = op_id)).
      * rewrite dict_get_set_eq. cbn. rewrite dict_get_del, dict_get_set.
        by destruct (decide (k = op_id)).
    + destruct (decide (k = op_id)) as [->|]; [|done]. by rewrite Hs.
  - destruct (decide (k = op_id)) as [->|]; [|done]. by rewrite Hs.
Qed.

(** X5. Selecting an operation and leaving it again: in every state the server
    reaches from its start, after a verified user selects [op_id] and is then
    removed from [op_id], the presence dict is equal, key by key, to the one
    [update_active_users] alone leaves: the user is active nowhere and all
    other users are where they were. *)
Theorem select_then_leave jwt_decode store_write commit_hash_of d f inputs
    token op_id user :
  let w := run jwt_decode store_write commit_hash_of (initial d f) inputs in
  verify_auth_token jwt_decode token w = (Ok (Some user), w) →
  let w1 := exec (handle_operation_selected jwt_decode token op_id) w in
  let w2 := exec (remove_active_user_id_from_specific_operation (User.id user) op_id) w1 in
  dict_eq (active w2) (active (exec (update_active_users (User.id user)) w)) ∧
  ∀ k s, dict_get k (active w2) = Some s → User.id user ∉ s.
Proof.
  intros w Hv w1 w2.
  destruct (presence_nonempty_run jwt_decode store_write commit_hash_of inputs
              (initial d f) (presence_nonempty_initial d f)) as [Hwf Hne].
  fold w in Hwf, Hne.
  destruct (handle_operation_selected_spec _ token op_id w user Hv)
    as (w1' & Hrun1 & _ & _ & Hget1 & _).
  destruct (update_active_users_spec (User.id user) w) as (w0 & Hrun0 & _ & _ & Hget0).
  pose proof (remove_specific_lookup (User.id user) op_id w1) as Hget2.
  assert (Heq : dict_eq (active w2) (active (exec (update_active_users (User.id user)) w))).
  { intros k. subst w2. rewrite Hget2. subst w1.
    rewrite (exec_run _ _ _ _ Hrun1), (exec_run _ _ _ _ Hrun0).
    rewrite !(Hget1 Hwf), (Hget0 Hwf).
    rewrite (decide_True (P := op_id = op_id)) by done.
    destruct (decide (k = op_id)) as [->|Hk]; [|done].
    cbn. rewrite decide_True by set_solver.
    destruct (drop_user (User.id user) (dict_get op_id (active w))) as [X|] eqn:HX; cbn.
    - pose proof HX as HX'. apply drop_user_Some in HX' as (t & Ht & _ & Hnot).
      assert (X ≠ ∅).
      { eapply drop_user_nonempty; [|exact HX]. rewrite Ht. cbn. by eapply Hne. }
      assert (({[User.id user]} ∪ X) ∖ {[User.id user]} = X) as -> by set_solver.
      by rewrite decide_True.
    - assert (({[User.id user]} ∪ ∅) ∖ {[User.id user]} = (∅ : gset Z)) as ->
        by set_solver.
      by rewrite decide_False by (by intros ?). }
  split; [done|]. intros k s Hk. rewrite Heq in Hk.
  rewrite (exec_run _ _ _ _ Hrun0), (Hget0 Hwf) in Hk.
  by apply drop_user_Some in Hk as (? & _ & _ & ?).
Qed.

Lemma select_then_leave_witness :
  dict_eq
    (active (exec (remove_active_user_id_from_specific_operation 1 7)
               (exec (handle_operation_selected Demo.decode "tokA" 7) Demo.w1)))
    (active (exec (update_active_users 1) Demo.w1)).
Proof.
  refine (proj1 (select_then_leave Demo.decode Demo.write_ok Demo.hash Demo.db0 ∅
                   (Demo.boot ++ Demo.selects) "tokA" 7 Demo.alice _)).
  vm_compute. reflexivity.
Defined.

Lemma remove_from_specific_operation_spec_witness :
  dict_get 42 (active (exec (remove_active_user_id_from_specific_operation 1 42) Demo.w1))
  = Some {[2]} ∧
  dict_wf (active (exec (remove_active_user_id_from_specific_operation 1 42) Demo.w1)).
Proof.
  destruct (remove_from_specific_operation_spec 1 42 Demo.w1) as (_ & Hget & Hwf & _).
  split.
  - rewrite Hget. vm_compute. reflexivity.
  - apply Hwf. apply presence_inv_run, presence_inv_initial.
Defined.

(** ** Switching operations *)

(** X6. A verified user who is not yet in the set of [op_id] selects [op_id],
    the presence dict having unique keys. Afterwards the set of [op_id] is the
    old one (empty when untracked) with the user added, so one larger; a set
    that did not hold the user is untouched; and a set that held the user has
    lost exactly the user, its key being deleted when the user was alone in
    it. *)
Theorem select_moves_user jwt_decode token op_id w user :
  dict_wf (active w) →
  verify_auth_token jwt_decode token w = (Ok (Some user), w) →
  User.id user ∉ default ∅ (dict_get op_id (active w)) →
  let u := User.id user in
  let w' := exec (handle_operation_selected jwt_decode token op_id) w in
  dict_get op_id (active w') = Some ({[u]} ∪ default ∅ (dict_get op_id (active w))) ∧
  size ({[u]} ∪ default ∅ (dict_get op_id (active w)))
    = S (size (default ∅ (dict_get op_id (active w)))) ∧
  (∀ k s, k ≠ op_id → dict_get k (active w) = Some s → u ∉ s →
          dict_get k (active w') = Some s) ∧
  (∀ k s, k ≠ op_id → dict_get k (active w) = Some s → u ∈ s →
          dict_get k (active w') = (if decide (s = {[u]}) then None else Some (s ∖ {[u]})) ∧
          S (size (s ∖ {[u]})) = size s) ∧
  (∀ k, k ≠ op_id → dict_get k (active w) = None → dict_get k (active w') = None).
Proof.
  intros Hwf Hv Hnot u w'. subst u w'.
  destruct (handle_operation_selected_spec _ token op_id w user Hv)
    as (w1 & Hrun & _ & _ & Hget & _).
  rewrite (exec_run _ _ _ _ Hrun). specialize (Hget Hwf).
  split; [|split; [|split; [|split]]].
  - rewrite Hget, decide_True by done. f_equal. f_equal.
    destruct (dict_get op_id (active w)) as [s|]; [|done]. cbn in *.
    by rewrite decide_False.
  - rewrite size_union by set_solver. by rewrite size_singleton.
  - intros k s Hk Hs Hin. rewrite Hget, decide_False, Hs by done. cbn.
    by rewrite decide_False.
  - intros k s Hk Hs Hin. rewrite Hget, decide_False, Hs by done. cbn.
    rewrite decide_True by done. split.
    + destruct (decide (s = {[User.id user]})) as [->|Hne].
      * rewrite decide_False; [done|]. intros Hne. apply Hne. set_solver.
      * rewrite decide_True; [done|]. intros He. apply Hne.
        apply set_eq. intros x. rewrite elem_of_singleton. split.
        -- intros Hx. destruct (decide (x = User.id user)); [done|].
           assert (x ∈ s ∖ {[User.id user]}) as Hx' by set_solver.
           rewrite He in Hx'. by apply not_elem_of_empty in Hx'.
        -- by intros ->.
    + assert (s = {[User.id user]} ∪ s ∖ {[User.id user]}) as Hs'.
      { apply set_eq. intros x. rewrite elem_of_union, elem_of_difference,
          elem_of_singleton. destruct (decide (x = User.id user)); naive_solver. }
      transitivity (size ({[User.id user]} ∪ s ∖ {[User.id user]})).
      * rewrite (size_union {[User.id user]} (s ∖ {[User.id user]})) by set_solver.
        by rewrite size_singleton.
      * by rewrite <- Hs'.
  - intros k Hk Hs. by rewrite Hget, decide_False, Hs.
Qed.

Lemma select_moves_user_witness :
  dict_get 7 (active (exec (handle_operation_selected Demo.decode "tokA" 7) Demo.w1))
    = Some {[1]} ∧
  dict_get 42 (active (exec (handle_operation_selected Demo.decode "tokA" 7) Demo.w1))
    = Some {[2]}.
Proof.
  destruct (select_moves_user Demo.decode "tokA" 7 Demo.w1 Demo.alice)
    as (Hnew & _ & _ & Hold & _).
  - apply presence_inv_run, presence_inv_initial.
  - vm_compute. reflexivity.
  - vm_compute. intros H. discriminate H.
  - split.
    + rewrite Hnew. vm_compute. reflexivity.
    + destruct (Hold 42 {[1; 2]}) as [Hget _].
      * discriminate.
      * vm_compute. reflexivity.
      * vm_compute. reflexivity.
      * rewrite Hget. vm_compute. reflexivity.
Defined.

(** ** The connection registry (utils.py) *)

Lemma fold_last_match {A B} (P : A → Prop) `{!∀ x, Decision (P x)} (g : A → B)
    (l : list A) : ∀ acc,
  fold_left (λ r x, if decide (P x) then Some (g x) else r) l acc
  = match last (filter P l) with
    | Some x => Some (g x)
    | None => acc
    end.
Proof.
  induction l as [|x l IH]; intros acc; [done|].
  cbn [fold_left]. rewrite IH, filter_cons.
  destruct (decide (P x)) as [Hx|Hx]; [|done].
  rewrite last_cons. by destruct (last (filter P l)).
Qed.

Lemma filter_none {A} (P : A → Prop) `{!∀ x, Decision (P x)} (l : list A) :
  Forall (λ x, ¬ P x) l → filter P l = [].
Proof.
  induction 1 as [|x l Hx _ IH]; [done|].
  by rewrite filter_cons, decide_False.
Qed.

Lemma get_user_id_eq sockets sid :
  get_user_id sockets sid = u_id <$> last (filter (λ d, s_id d = sid) sockets).
Proof.
  unfold get_user_id. rewrite (fold_last_match (λ d, s_id d = sid) u_id).
  by destruct (last _).
Qed.

Lemma get_session_id_eq sockets uid :
  get_session_id sockets uid = s_id <$> last (filter (λ d, u_id d = uid) sockets).
Proof.
  unfold get_session_id. rewrite (fold_last_match (λ d, u_id d = uid) s_id).
  by destruct (last _).
Qed.

Lemma filter_nil_Forall {A} (P : A → Prop) `{!∀ x, Decision (P x)} (l : list A) :
  filter P l = [] → Forall (λ x, ¬ P x) l.
Proof.
  intros Hnil. apply Forall_forall. intros x Hx HP.
  assert (x ∈ filter P l) as Hin by (by apply list_elem_of_filter).
  rewrite Hnil in Hin. by apply elem_of_nil in Hin.
Qed.

Lemma get_user_id_None sockets sid :
  get_user_id sockets sid = None → Forall (λ d, s_id d ≠ sid) sockets.
Proof.
  rewrite get_user_id_eq, fmap_None, last_None. apply filter_nil_Forall.
Qed.

(** X7. [get_user_id] answers the user of the last registry entry of the
    connection (a later registration overrides an earlier one), and [None]
    exactly when the registry has no entry for the connection. *)
Theorem get_user_id_last sockets sid :
  get_user_id sockets sid = u_id <$> last (filter (λ d, s_id d = sid) sockets) ∧
  (get_user_id sockets sid = None ↔ Forall (λ d, s_id d ≠ sid) sockets).
Proof.
  split; [apply get_user_id_eq|]. split; [apply get_user_id_None|].
  intros Hall. rewrite get_user_id_eq, fmap_None, last_None.
  by apply filter_none.
Qed.

(** X8. [get_session_id] answers the connection of the last registry entry of
    the user, and [None] exactly when the user has no entry. *)
Theorem get_session_id_last sockets uid :
  get_session_id sockets uid = s_id <$> last (filter (λ d, u_id d = uid) sockets) ∧
  (get_session_id sockets uid = None ↔ Forall (λ d, u_id d ≠ uid) sockets).
Proof.
  split; [apply get_session_id_eq|].
  rewrite get_session_id_eq, fmap_None, last_None. split.
  - apply filter_nil_Forall.
  - intros Hall. by apply filter_none.
Qed.

Lemma handle_start_event_run jwt_decode sid token w user :
  verify_auth_token jwt_decode token w = (Ok (Some user), w) →
  handle_start_event jwt_decode sid token w
  = (Ok tt,
     with_sockets (λ sockets, sockets ++ [{| s_id := sid; u_id := User.id user |}])
       (with_rooms (joined sid (permissions_of_user (db w) (User.id user))) w)).
Proof.
  intros Hv. unfold handle_start_event. unfold mbind at 1, M_bind at 1. rewrite Hv.
  unfold mbind, M_bind, gets. by rewrite join_rooms_run.
Qed.

(** X9. Registering and looking up: after a [start] event whose token
    verifies, the registry answers the user for the connection and the
    connection for the user, whatever it held for either before. *)
Theorem start_then_lookup jwt_decode sid token w user :
  verify_auth_token jwt_decode token w = (Ok (Some user), w) →
  let w' := exec (handle_start_event jwt_decode sid token) w in
  get_user_id (sockets (sm w')) sid = Some (User.id user) ∧
  get_session_id (sockets (sm w')) (User.id user) = Some sid.
Proof.
  intros Hv w'. subst w'.
  rewrite (exec_run _ _ _ _ (handle_start_event_run _ sid _ _ _ Hv)).
  rewrite get_user_id_eq, get_session_id_eq. unfold with_sockets, with_sm.
  cbn [sockets sm].
  rewrite !filter_app, !filter_cons, !filter_nil. cbn.
  rewrite !decide_True by done. by rewrite !last_snoc.
Qed.

Lemma start_then_lookup_witness :
  get_user_id (sockets (sm (exec (handle_start_event Demo.decode Demo.sidB "tokA")
                              Demo.w1))) Demo.sidB = Some 1 ∧
  get_session_id (sockets (sm (exec (handle_start_event Demo.decode Demo.sidB "tokA")
                                 Demo.w1))) 1 = Some Demo.sidB.
Proof.
  apply (start_then_lookup Demo.decode Demo.sidB "tokA" Demo.w1 Demo.alice).
  vm_compute. reflexivity.
Defined.

(** X10. [disconnect] of one connection leaves what the registry answers for
    every other connection as it was. *)
Theorem disconnect_keeps_other_connections sid sid' w :
  sid' ≠ sid →
  get_user_id (sockets (sm (exec (handle_disconnect sid) w))) sid'
  = get_user_id (sockets (sm w)) sid'.
Proof.
  intros Hne.
  destruct (handle_disconnect_spec sid w) as (w1 & Hrun & (Hso & _) & _).
  rewrite (exec_run _ _ _ _ Hrun).
  rewrite !get_user_id_eq. unfold with_sockets, with_sm.
  cbn [sockets sm]. rewrite Hso. f_equal. f_equal.
  rewrite list_filter_filter. apply list_filter_iff.
  intros d. split; [by intros [? _]|]. intros Hd. split; [done|]. congruence.
Qed.

Lemma disconnect_keeps_other_connections_witness :
  get_user_id (sockets (sm (exec (handle_disconnect Demo.sidA) Demo.w1))) Demo.sidB
  = Some 2.
Proof.
  rewrite (disconnect_keeps_other_connections Demo.sidA Demo.sidB Demo.w1).
  - vm_compute. reflexivity.
  - discriminate.
Defined.

(** X11. [disconnect] of a connection the registry does not know (one that
    never sent a [start] whose token verified) changes nothing and emits
    nothing. *)
Theorem disconnect_unregistered sid w :
  get_user_id (sockets (sm w)) sid = None →
  handle_disconnect sid w = (Ok tt, w) ∧
  effects_of (handle_disconnect sid) w = [].
Proof.
  intros Hnone.
  assert (Hrun : handle_disconnect sid w = (Ok tt, w)).
  { unfold handle_disconnect. munfold. rewrite Hnone. cbn. f_equal.
    apply with_sockets_id, filter_all.
    by apply get_user_id_None. }
  split; [done|]. unfold effects_of. rewrite (exec_run _ _ _ _ Hrun). apply drop_all.
Qed.

Lemma disconnect_unregistered_witness :
  handle_disconnect "sidD" Demo.w1 = (Ok tt, Demo.w1).
Proof.
  apply (disconnect_unregistered "sidD" Demo.w1). vm_compute. reflexivity.
Defined.

(** ** Authentication and authorization gates *)

(** X12. An event whose token does not verify is dropped in silence, whatever
    the event: the handler returns, the server state is what it was, and
    nothing is emitted. *)
Theorem unverified_token_is_dropped jwt_decode store_write commit_hash_of
    sid ev token w :
  token_of ev = Some token →
  verify_auth_token jwt_decode token w = (Ok None, w) →
  on_event jwt_decode store_write commit_hash_of sid ev w = (Ok tt, w) ∧
  effects_of (on_event jwt_decode store_write commit_hash_of sid ev) w = [].
Proof.
  intros Htok Hv.
  assert (Hrun : on_event jwt_decode store_write commit_hash_of sid ev w = (Ok tt, w)).
  { destruct ev; cbn in Htok; try done; injection Htok as ->; cbn [on_event];
      unfold handle_start_event, handle_message, handle_message_edit,
        handle_message_delete, handle_file_save, join_creator_to_operation,
        update_operation_list, handle_operation_selected;
      unfold mbind at 1, M_bind at 1; by rewrite Hv. }
  split; [done|]. unfold effects_of. rewrite (exec_run _ _ _ _ Hrun). apply drop_all.
Qed.

Lemma unverified_token_is_dropped_witness :
  on_event Demo.decode Demo.write_ok Demo.hash Demo.sidA
    (file_save "expired" 42 "<xml/>" None None None) Demo.w1 = (Ok tt, Demo.w1).
Proof.
  refine (proj1 (unverified_token_is_dropped Demo.decode Demo.write_ok Demo.hash
                   Demo.sidA (file_save "expired" 42 "<xml/>" None None None)
                   "expired" Demo.w1 _ _)).
  - reflexivity.
  - vm_compute. reflexivity.
Defined.

(** X13. [edit-message] and [delete-message] from a verified user whose
    permission on the operation of the event is missing or is [viewer] are
    dropped in silence: no message is touched and nothing is emitted. *)
Theorem edit_delete_denied jwt_decode token op_id message_id new_message_text w user :
  verify_auth_token jwt_decode token w = (Ok (Some user), w) →
  (permission_first (db w) (User.id user) op_id = None ∨
   ∃ p, permission_first (db w) (User.id user) op_id = Some p ∧
        Permission.access_level p = viewer) →
  handle_message_edit jwt_decode token op_id message_id new_message_text w = (Ok tt, w) ∧
  handle_message_delete jwt_decode token op_id message_id w = (Ok tt, w).
Proof.
  intros Hv Hp.
  assert (Hperm : permission_check_emit (User.id user) op_id w = (Ok false, w)).
  { rewrite permission_check_emit_run. destruct Hp as [->|(p & -> & Hp)]; [done|].
    by rewrite bool_decide_eq_false_2 by (by intros ?). }
  split.
  - unfold handle_message_edit. unfold mbind at 1, M_bind at 1. rewrite Hv.
    unfold mbind at 1, M_bind at 1. by rewrite Hperm.
  - unfold handle_message_delete. unfold mbind at 1, M_bind at 1. rewrite Hv.
    unfold mbind at 1, M_bind at 1. by rewrite Hperm.
Qed.

Lemma edit_delete_denied_witness :
  handle_message_edit Demo.decode "tokB" 42 1 "edited" Demo.w2 = (Ok tt, Demo.w2) ∧
  handle_message_delete Demo.decode "tokC" 42 1 Demo.w2 = (Ok tt, Demo.w2).
Proof.
  split.
  - refine (proj1 (edit_delete_denied Demo.decode "tokB" 42 1 "edited" Demo.w2
                     Demo.bob _ _)).
    + vm_compute. reflexivity.
    + right. exists (Permission.mk 2 42 2 viewer). split; reflexivity.
  - refine (proj2 (edit_delete_denied Demo.decode "tokC" 42 1 "edited" Demo.w2
                     Demo.carol _ _)).
    + vm_compute. reflexivity.
    + left. reflexivity.
Defined.

(** X19. [permission_check_emit] never raises and never changes the state, and
    whenever [permission_check_admin] answers [True], so does
    [permission_check_emit]: who may administer may emit. *)
Theorem admin_may_emit u op_id w :
  (∃ b, permission_check_emit u op_id w = (Ok b, w)) ∧
  (permission_check_admin u op_id w = (Ok true, w) →
   permission_check_emit u op_id w = (Ok true, w)).
Proof.
  rewrite permission_check_emit_run, permission_check_admin_run.
  split; [eauto|].
  destruct (permission_first (db w) u op_id) as [p|]; [|done].
  intros [= Hb]. apply bool_decide_eq_true_1 in Hb.
  rewrite bool_decide_eq_true_2; [done|]. destruct Hb as [-> | ->]; done.
Qed.

Lemma admin_may_emit_witness :
  permission_check_emit 1 42 Demo.w1 = (Ok true, Demo.w1).
Proof.
  apply (proj2 (admin_may_emit 1 42 Demo.w1)). reflexivity.
Defined.

(** X16. [emit_update_permission]: with an [access_level] it emits one
    [update-permission] carrying it, to every connected client; without one
    it carries the level of the user's permission row, and when there is no
    such row it raises before emitting anything. *)
Theorem emit_update_permission_spec u op_id w :
  (∀ level,
     effects_of (emit_update_permission u op_id (Some level)) w
     = [Emit {| em_event := "update-permission";
                em_data := Dumps (PyDict [("op_id", PyInt op_id); ("u_id", PyInt u);
                                          ("access_level", PyStr level)]%string);
                em_to := None;
                em_recipients := dom (sio_rooms w) |}]) ∧
  (∀ p, permission_first (db w) u op_id = Some p →
     effects_of (emit_update_permission u op_id None) w
     = effects_of
         (emit_update_permission u op_id
            (Some (access_level_name (Permission.access_level p)))) w) ∧
  (permission_first (db w) u op_id = None →
     emit_update_permission u op_id None w = (Raise AttributeError, w)).
Proof.
  unfold effects_of, exec, emit_update_permission. munfold. cbn.
  split; [|split].
  - intros level. by rewrite drop_app_length.
  - by intros p ->.
  - by intros ->.
Qed.

Lemma emit_update_permission_spec_witness :
  emit_update_permission 3 42 None Demo.w1 = (Raise AttributeError, Demo.w1).
Proof.
  apply (proj2 (proj2 (emit_update_permission_spec 3 42 Demo.w1))). reflexivity.
Defined.

(** ** Rooms *)

Lemma str_inj n m : str n = str m → n = m.
Proof. unfold str. apply pretty_Z_inj. Qed.

(** X14. After a [start] event whose token verifies, the connection is in the
    room of operation [op_id] exactly when it already was, or the user has a
    permission record on [op_id]: the rooms of two operations never
    coincide, so a permission on one operation opens no other room. *)
Theorem start_joins_permitted_rooms_only jwt_decode sid token w user op_id :
  verify_auth_token jwt_decode token w = (Ok (Some user), w) →
  let w' := exec (handle_start_event jwt_decode sid token) w in
  str op_id ∈ rooms_of w' sid ↔
  str op_id ∈ rooms_of w sid ∨
  ∃ p, p ∈ permissions (db w) ∧ Permission.u_id p = User.id user ∧
       Permission.op_id p = op_id.
Proof.
  intros Hv w'. subst w'.
  rewrite (exec_run _ _ _ _ (handle_start_event_run _ sid _ _ _ Hv)).
  unfold rooms_of. cbn [sio_rooms with_sockets with_sm with_rooms].
  rewrite joined_self.
  rewrite elem_of_union, elem_of_list_to_set, list_elem_of_fmap.
  split; (intros [?|Hp]; [by left|right]).
  - destruct Hp as (p & Heq & [Hu Hin]%list_elem_of_filter). cbn in Heq.
    apply str_inj in Heq. by exists p.
  - destruct Hp as (p & Hin & Hu & <-). exists p. split; [done|].
    by apply list_elem_of_filter.
Qed.

Lemma start_joins_permitted_rooms_only_witness :
  str 7 ∈ rooms_of (exec (handle_start_event Demo.decode Demo.sidC "tokA") Demo.w1)
                   Demo.sidC.
Proof.
  apply (start_joins_permitted_rooms_only Demo.decode Demo.sidC "tokA" Demo.w1
           Demo.alice 7).
  - vm_compute. reflexivity.
  - right. exists (Permission.mk 3 7 1 collaborator).
    split; [|split; reflexivity]. vm_compute. right. right. left.
Defined.

(** X15. [add-user-to-operation] from a verified user puts the connection into
    the room of the operation named in the event, whether or not the user
    has any permission on it; the rooms of other connections, the registry,
    presence and the database are untouched, and nothing is emitted. *)
Theorem join_creator_to_operation_spec jwt_decode sid token op_id w user :
  verify_auth_token jwt_decode token w = (Ok (Some user), w) →
  let w' := exec (join_creator_to_operation jwt_decode sid token op_id) w in
  join_creator_to_operation jwt_decode sid token op_id w = (Ok tt, w') ∧
  rooms_of w' sid = {[str op_id]} ∪ rooms_of w sid ∧
  (∀ sid', sid' ≠ sid → sio_rooms w' !! sid' = sio_rooms w !! sid') ∧
  sm w' = sm w ∧ db w' = db w ∧ trace w' = trace w.
Proof.
  intros Hv w'. subst w'.
  eassert (Hrun : join_creator_to_operation jwt_decode sid token op_id w = (Ok tt, _)).
  { unfold join_creator_to_operation. unfold mbind at 1, M_bind at 1. rewrite Hv.
    reflexivity. }
  rewrite (exec_run _ _ _ _ Hrun). split; [done|]. unfold rooms_of. cbn.
  split; [by rewrite lookup_insert_eq|].
  split; [intros sid' Hne; by rewrite lookup_insert_ne|done].
Qed.

Lemma join_creator_to_operation_spec_witness :
  rooms_of (exec (join_creator_to_operation Demo.decode Demo.sidC "tokC" 42) Demo.w1)
           Demo.sidC
  = {[str 42]} ∪ rooms_of Demo.w1 Demo.sidC.
Proof.
  refine (proj1 (proj2 (join_creator_to_operation_spec Demo.decode Demo.sidC "tokC" 42
                          Demo.w1 Demo.carol _))).
  vm_compute. reflexivity.
Defined.

(** ** Tokens (models.py) *)

(** X18. [generate_auth_token] answers a token only when no expiration is
    configured in the settings nor passed; the token then carries the user's
    id and expires 864000 seconds from now. With an expiration configured or
    passed it answers [None]. A token it answers, when the decoder accepts
    it and the user is the row of that id, verifies back to the user. *)
Theorem generate_then_verify jwt_encode jwt_decode settings_EXPIRATION now user
    expiration w :
  let effective := match settings_EXPIRATION with
                   | Some configured => configured
                   | None => expiration
                   end in
  (is_Some effective →
   generate_auth_token jwt_encode settings_EXPIRATION now user expiration = None) ∧
  (effective = None →
   generate_auth_token jwt_encode settings_EXPIRATION now user expiration
     = Some (jwt_encode (User.id user) (now + 864000))) ∧
  ∀ token,
    generate_auth_token jwt_encode settings_EXPIRATION now user expiration = Some token →
    jwt_decode token = Some (User.id user) →
    user_first (db w) (User.id user) = Some user →
    verify_auth_token jwt_decode token w = (Ok (Some user), w).
Proof.
  intros effective. subst effective. unfold generate_auth_token.
  destruct (match settings_EXPIRATION with Some c => c | None => expiration end)
    as [e|]; (split; [|split]); try done; try (by intros [? ?]).
  intros token _ Hdec Hrow. unfold verify_auth_token. by rewrite Hdec, Hrow.
Qed.

Lemma generate_then_verify_witness :
  generate_auth_token Demo.encode (Some (Some 3600)) 0 Demo.alice None = None ∧
  verify_auth_token Demo.decode "tokA" Demo.w1 = (Ok (Some Demo.alice), Demo.w1).
Proof.
  split.
  - apply (proj1 (generate_then_verify Demo.encode Demo.decode (Some (Some 3600)) 0
                    Demo.alice None Demo.w1)). by exists 3600.
  - apply (proj2 (proj2 (generate_then_verify Demo.encode Demo.decode None 0
                           Demo.alice None Demo.w1))); reflexivity.
Defined.

(** ** Every emission is a broadcast *)

Ltac run_event :=
  unfold exec, handle_connect, handle_start_event, handle_message,
    handle_message_edit, handle_message_delete, handle_file_save,
    join_creator_to_operation, update_operation_list,
    add_message, edit_message, delete_message, save_file, get_message_dict,
    verify_auth_token;
  repeat first
    [ rewrite permission_check_emit_run
    | rewrite join_rooms_run
    | progress (unfold mbind, M_bind, mret, M_ret, gets, modify, raise,
                       socketio_emit, sio_emit)
    | progress cbn
    | progress simplify_eq
    | case_match ];
  try (unfold join_room, modify; cbn).

Ltac trace_grows :=
  first
    [ by (exists []; split; [by rewrite app_nil_r|constructor])
    | by (eexists; split; [rewrite <- ?app_assoc; reflexivity|repeat constructor]) ].

Lemma presence_step_unscoped w w' :
  presence_step w w' → ∃ es, trace w' = trace w ++ es ∧ Forall unscoped es.
Proof.
  intros (_ & _ & _ & _ & es & Ht & Hes). exists es. split; [done|].
  eapply Forall_impl; [exact Hes|]. by intros ef [(e & -> & Hto & _) _].
Qed.

Lemma step_trace jwt_decode store_write commit_hash_of w i :
  ∃ es, trace (step jwt_decode store_write commit_hash_of w i) = trace w ++ es ∧
        Forall unscoped es.
Proof.
  destruct i as [sid ev|d]; [|trace_grows].
  destruct ev as [| | | | | | | | |token op_id]; cbn [step on_event].
  - trace_grows.
  - run_event; trace_grows.
  - destruct (handle_disconnect_spec sid w) as (w1 & Hrun & Hstep & _).
    rewrite (exec_run _ _ _ _ Hrun). cbn. by apply presence_step_unscoped.
  - run_event; trace_grows.
  - run_event; trace_grows.
  - run_event; trace_grows.
  - run_event; trace_grows.
  - run_event; trace_grows.
  - run_event; trace_grows.
  - destruct (handle_operation_selected_step jwt_decode token op_id w)
      as (w1 & Hrun & Hstep & _).
    rewrite (exec_run _ _ _ _ Hrun). by apply presence_step_unscoped.
Qed.

(** X17. Whatever events the server handles from its start, the trace only
    grows, and no emission in it is addressed to a room or to a single
    connection: every event the socket manager sends goes to all connected
    clients. *)
Theorem every_emission_is_a_broadcast jwt_decode store_write commit_hash_of
    d f inputs more :
  let w := run jwt_decode store_write commit_hash_of (initial d f) inputs in
  let w' := run jwt_decode store_write commit_hash_of (initial d f) (inputs ++ more) in
  Forall unscoped (trace w) ∧ trace w `prefix_of` trace w'.
Proof.
  intros w w'.
  assert (Hgrow : ∀ l w0, ∃ es,
            trace (run jwt_decode store_write commit_hash_of w0 l) = trace w0 ++ es ∧
            Forall unscoped es).
  { unfold run. induction l as [|i l IH]; intros w0.
    - exists []. split; [by rewrite app_nil_r|constructor].
    - cbn. destruct (step_trace jwt_decode store_write commit_hash_of w0 i)
        as (es1 & Ht1 & Hes1).
      destruct (IH (step jwt_decode store_write commit_hash_of w0 i))
        as (es2 & Ht2 & Hes2).
      exists (es1 ++ es2). split; [by rewrite Ht2, Ht1, app_assoc|].
      by apply Forall_app. }
  split.
  - destruct (Hgrow inputs (initial d f)) as (es & Ht & Hes). subst w. by rewrite Ht.
  - subst w w'. unfold run. rewrite fold_left_app.
    destruct (Hgrow more (fold_left (step jwt_decode store_write commit_hash_of)
                            inputs (initial d f))) as (es & Ht & _).
    unfold run in Ht. rewrite Ht. by exists es.
Qed.

(** ** What clients see when an operation is selected *)

Lemma at_most_one_holder u (l : pydict (gset Z)) :
  NoDup l.*1 →
  (∀ k1 s1 k2 s2, (k1, s1) ∈ l → (k2, s2) ∈ l → u ∈ s1 → u ∈ s2 → k1 = k2) →
  (length (filter (λ kv, u ∈ kv.2) l) ≤ 1)%nat.
Proof.
  induction l as [|[k s] l IH]; [cbn; lia|].
  rewrite fmap_cons. cbn [fst]. intros [Hk Hnd]%NoDup_cons Hu.
  rewrite filter_cons. cbn [snd]. destruct (decide (u ∈ s)) as [Hin|Hin].
  - rewrite (filter_none (λ kv : Z * gset Z, u ∈ kv.2) l); [cbn; lia|].
    apply Forall_forall. intros [k' s'] Hin' Hus'. cbn in Hus'.
    apply Hk. apply list_elem_of_fmap. exists (k', s'). split; [|done]. cbn.
    apply (Hu k s k' s'); [left|by right|done|done].
  - apply IH; [done|]. intros k1 s1 k2 s2 H1 H2. apply Hu; by right.
Qed.

(** X21. What a verified [operation-selected] emits, in any state the server
    reaches from its start: the updates of [update_active_users], of which
    there is at most one (for the operation the user leaves), and then one
    [active-user-update] for the selected operation carrying the size of its
    set. *)
Theorem select_emissions jwt_decode store_write commit_hash_of d f inputs
    token op_id user :
  let w := run jwt_decode store_write commit_hash_of (initial d f) inputs in
  verify_auth_token jwt_decode token w = (Ok (Some user), w) →
  let w' := exec (handle_operation_selected jwt_decode token op_id) w in
  let leaving := filter (λ kv, User.id user ∈ kv.2) (active w) in
  (length leaving ≤ 1)%nat ∧
  ∃ user_ids,
    dict_get op_id (active w') = Some user_ids ∧
    effects_of (handle_operation_selected jwt_decode token op_id) w
    = (uau_emission w (User.id user) <$> leaving) ++
      [Emit {| em_event := "active-user-update";
               em_data := active_user_update op_id (Z.of_nat (size user_ids));
               em_to := None;
               em_recipients := dom (sio_rooms w) |}].
Proof.
  intros w Hv w' leaving. subst w' leaving. split.
  - assert (Hinv : presence_inv w) by apply presence_inv_run, presence_inv_initial.
    destruct Hinv as [Hwf Hu]. apply at_most_one_holder; [done|].
    intros k1 s1 k2 s2 H1 H2. apply Hu; by apply dict_get_elem_of.
  - generalize dependent w. intros w Hv.
    destruct (uau_loop_trace (User.id user) (active w) w) as (w1 & Hrun1 & Hr1 & Ht1).
    rewrite <- update_active_users_unfold in Hrun1.
    eassert (Hrun : handle_operation_selected jwt_decode token op_id w = (Ok tt, _)).
    { unfold handle_operation_selected. unfold mbind at 1, M_bind at 1. rewrite Hv.
      unfold mbind at 1, M_bind at 1. rewrite Hrun1. munfold. cbn.
      destruct (dict_get op_id (active w1)) as [s1|] eqn:Hop; cbn.
      - rewrite Hop. cbn. rewrite dict_get_set_eq. cbn.
        instantiate (1 := log (Emit {| em_event := "active-user-update";
            em_data := active_user_update op_id
              (Z.of_nat (size ({[User.id user]} ∪ default ∅ (dict_get op_id (active w1)))));
            em_to := None; em_recipients := dom (sio_rooms w1) |})
          (with_active (λ d, dict_set op_id
              ({[User.id user]} ∪ default ∅ (dict_get op_id (active w1)))
              (if dict_get op_id (active w1) is None then dict_set op_id ∅ d else d)) w1)).
        by rewrite Hop.
      - rewrite dict_get_set_eq. cbn. rewrite dict_get_set_eq. cbn. by rewrite Hop. }
    unfold effects_of. rewrite (exec_run _ _ _ _ Hrun). cbn.
    eexists. split; [apply dict_get_set_eq|].
    by rewrite Ht1, Hr1, <- app_assoc, drop_app_length.
Qed.

Lemma select_emissions_witness :
  (length (filter (λ kv : Z * gset Z, 1%Z ∈ kv.2) (active Demo.w1)) ≤ 1)%nat.
Proof.
  refine (proj1 (select_emissions Demo.decode Demo.write_ok Demo.hash Demo.db0 ∅
                   (Demo.boot ++ Demo.selects) "tokA" 7 Demo.alice _)).
  vm_compute. reflexivity.
Defined.

(** ** The reply cascade under the two-level convention (models.py) *)

(** X20. In a table that keeps the two-level convention (no reply has
    replies), the cascade of deleting a stored message reaches the message
    and its direct replies, and nothing else. *)
Theorem two_level_cascade tbl m x :
  two_level tbl → m ∈ tbl →
  x ∈ cascade_delete tbl (Message.id m) ↔
  x = Message.id m ∨
  ∃ r, r ∈ tbl ∧ Message.reply_id r = Some (Message.id m) ∧ Message.id r = x.
Proof.
  intros Htwo Hm. unfold cascade_delete.
  destruct tbl as [|m0 tbl0] eqn:Htbl; [by apply elem_of_nil in Hm|].
  rewrite <- Htbl in *. replace (length tbl) with (S (length tbl0)) by (by rewrite Htbl).
  cbn [cascade]. rewrite elem_of_cons, list_elem_of_In, in_flat_map.
  split; (intros [?|(r & Hr & Hx)]; [by left|right]).
  - apply list_elem_of_In, list_elem_of_filter in Hr as [Hreply Hin].
    rewrite cascade_no_replies in Hx by (apply Htwo; [done|by rewrite Hreply]).
    apply list_elem_of_In, list_elem_of_singleton in Hx. by exists r.
  - destruct Hx as [Hreply <-]. exists r. split.
    + apply list_elem_of_In, list_elem_of_filter. by split.
    + apply list_elem_of_In, cascade_self.
Qed.

Lemma two_level_cascade_witness :
  2 ∈ cascade_delete [Demo.m1; Demo.m2] (Message.id Demo.m1).
Proof.
  apply (two_level_cascade [Demo.m1; Demo.m2] Demo.m1 2).
  - intros r [->|[->|[]%elem_of_nil]%elem_of_cons]%elem_of_cons; [by intros [? [=]]|].
    intros _. reflexivity.
  - left.
  - right. exists Demo.m2. split; [right; left|]. split; reflexivity.
Defined.
